(** * Capomastro: dependency aggregation and artifact archiving

    A shallow embedding of the persisted data model of capomastro
    (jenkins/models.py, projects/models.py) and of the operations that
    reconcile incoming builds and archive their artifacts.

    Django model instances are records, database tables are lists of rows
    in table order, nullable foreign keys are [option] primary keys, and
    CharFields are strings compared exactly, as the ORM's [filter] does. *)

From Stdlib Require Import List String Ascii ZArith Lia Bool Arith PeanoNat.
From Stdlib Require Import DecimalString.
From Stdlib Require DecimalNat.
Import ListNotations.
Local Open Scope string_scope.
Local Open Scope nat_scope.

(* ------------------------------------------------------------------ *)
(** ** jenkins/models.py *)

Module Jenkins.

Record Build := mkBuild {
  b_pk : nat;
  b_job : nat;
  b_build_id : string;
  b_number : Z;
  b_phase : string;
  b_status : string
}.

Definition STARTED : string := "STARTED".
Definition COMPLETED : string := "COMPLETED".
Definition FINALIZED : string := "FINALIZED".

(** [Build.translate_build_phase]: Jenkins notifications changed the phase
    from FINISHED to FINALIZED. *)
Definition translate_build_phase (phase : string) : string :=
  if String.eqb phase "FINISHED" then FINALIZED else phase.

Record Artifact := mkArtifact {
  a_pk : nat;
  a_build : nat;
  a_filename : string;
  a_url : string
}.

(** [l[-n:]]: the last [n] items of a list, all of them when it has fewer. *)
Definition last_n {A : Type} (n : nat) (l : list A) : list A :=
  skipn (List.length l - n) l.

Definition CONSOLE_TAIL_LINES : nat := 20.

Definition newline : string := String "010" EmptyString.

Section ConsoleLog.

(** [str.splitlines] of the Python library. *)
Variable splitlines : string -> list string.

(** [Build.console_log_summary], a property reading [self.console_log]
    (NULL or text). *)
Definition console_log_summary (console_log : option string) : option string :=
  match console_log with
  | None => None
  | Some EmptyString => Some EmptyString
  | Some log =>
      Some (String.concat newline (last_n CONSOLE_TAIL_LINES (splitlines log)))
  end.

End ConsoleLog.

End Jenkins.
Export Jenkins.

(* ------------------------------------------------------------------ *)
(** ** Timestamps

    [timezone.now()] is an aware UTC datetime (USE_TZ = True, TIME_ZONE =
    'UTC'); with one time zone, comparison is lexicographic on the fields. *)

Record datetime := mkDatetime {
  year : nat; month : nat; day : nat;
  hour : nat; minute : nat; second : nat; microsecond : nat
}.

Definition lex (c1 c2 : comparison) : comparison :=
  match c1 with Eq => c2 | _ => c1 end.

Definition dt_compare (a b : datetime) : comparison :=
  lex (Nat.compare (year a) (year b))
 (lex (Nat.compare (month a) (month b))
 (lex (Nat.compare (day a) (day b))
 (lex (Nat.compare (hour a) (hour b))
 (lex (Nat.compare (minute a) (minute b))
 (lex (Nat.compare (second a) (second b))
      (Nat.compare (microsecond a) (microsecond b))))))).

Definition dt_gtb (a b : datetime) : bool :=
  match dt_compare a b with Gt => true | _ => false end.

Definition dt_leb (a b : datetime) : bool :=
  match dt_compare a b with Gt => false | _ => true end.

(** [datetime.replace(hour=h, minute=m, second=s)]: the other fields,
    microsecond included, are kept. *)
Definition replace_hms (t : datetime) (h m s : nat) : datetime :=
  mkDatetime (year t) (month t) (day t) h m s (microsecond t).

(** ["%d" % n] *)
Definition dec (n : nat) : string := NilEmpty.string_of_uint (Nat.to_uint n).

Definition pad2 (n : nat) : string :=
  if n <? 10 then "0" ++ dec n else dec n.

Definition pad4 (n : nat) : string :=
  if n <? 10 then "000" ++ dec n
  else if n <? 100 then "00" ++ dec n
  else if n <? 1000 then "0" ++ dec n
  else dec n.

(** [t.strftime("%Y%m%d" ++ suffix)] for a suffix without directives.
    Python 2's strftime raises ValueError for years before 1900. *)
Definition strftime_Ymd (t : datetime) (suffix : string) : option string :=
  if year t <? 1900 then None
  else Some (pad4 (year t) ++ pad2 (month t) ++ pad2 (day t) ++ suffix).

Definition same_day (a b : datetime) : bool :=
  (year a =? year b) && (month a =? month b) && (day a =? day b).

(* ------------------------------------------------------------------ *)
(** ** projects/models.py: the rows *)

Record Dependency := mkDependency {
  d_pk : nat;
  d_name : string;
  d_job : option nat
}.

Record ProjectDependency := mkProjectDependency {
  pd_pk : nat;
  pd_dependency : nat;
  pd_project : nat;
  pd_auto_track : bool;
  pd_current_build : option nat
}.

Record Project := mkProject {
  p_pk : nat;
  p_name : string
}.

(** [ProjectBuild].  models.py calls the key field [build_id]; the tests and
    the tasks call it [build_key].  [pb_phase] is the field the tasks and
    tests read as [projectbuild.phase]. *)
Record ProjectBuild := mkProjectBuild {
  pb_pk : nat;
  pb_project : nat;
  pb_requested_by : option nat;
  pb_requested_at : datetime;
  pb_ended_at : option datetime;
  pb_status : string;
  pb_phase : string;
  pb_build_key : string
}.

Record ProjectBuildDependency := mkProjectBuildDependency {
  pbd_pk : nat;
  pbd_projectbuild : nat;
  pbd_build : option nat;
  pbd_dependency : nat
}.

(** ** archives: the rows (fields as the tests create and read them) *)

Record Archive := mkArchive {
  ar_pk : nat;
  ar_name : string;
  ar_policy : string;
  ar_username : string;
  ar_password : string;
  ar_default : bool
}.

Record ArchiveArtifact := mkArchiveArtifact {
  aa_pk : nat;
  aa_archive : nat;
  aa_artifact : nat;
  aa_build : nat;
  aa_projectbuild_dependency : option nat;
  aa_archived_path : string;
  aa_archived_size : option nat;
  aa_archived_at : option datetime
}.

(** ** The persisted store: one list of rows per table. *)

Record Store := mkStore {
  builds : list Build;
  artifacts : list Artifact;
  dependencies : list Dependency;
  projects : list Project;
  project_dependencies : list ProjectDependency;
  projectbuilds : list ProjectBuild;
  projectbuild_dependencies : list ProjectBuildDependency;
  archives : list Archive;
  archive_artifacts : list ArchiveArtifact
}.

Definition set_project_dependencies (st : Store) (l : list ProjectDependency) : Store :=
  mkStore (builds st) (artifacts st) (dependencies st) (projects st) l
          (projectbuilds st) (projectbuild_dependencies st)
          (archives st) (archive_artifacts st).

Definition set_projectbuilds (st : Store) (l : list ProjectBuild) : Store :=
  mkStore (builds st) (artifacts st) (dependencies st) (projects st)
          (project_dependencies st) l (projectbuild_dependencies st)
          (archives st) (archive_artifacts st).

Definition set_projectbuild_dependencies (st : Store)
    (l : list ProjectBuildDependency) : Store :=
  mkStore (builds st) (artifacts st) (dependencies st) (projects st)
          (project_dependencies st) (projectbuilds st) l
          (archives st) (archive_artifacts st).

Definition set_archive_artifacts (st : Store) (l : list ArchiveArtifact) : Store :=
  mkStore (builds st) (artifacts st) (dependencies st) (projects st)
          (project_dependencies st) (projectbuilds st)
          (projectbuild_dependencies st) (archives st) l.

Definition opt_nat_eqb (a b : option nat) : bool :=
  match a, b with
  | Some x, Some y => x =? y
  | None, None => true
  | _, _ => false
  end.

(** [Build.objects.get(pk=...)] *)
Definition get_build (st : Store) (pk : nat) : option Build :=
  find (fun b => b_pk b =? pk) (builds st).

(* ------------------------------------------------------------------ *)
(** ** projects/models.py: the operations *)

Module Projects.

(** [job.build_set] *)
Definition build_set (st : Store) (job : nat) : list Build :=
  filter (fun b => b_job b =? job) (builds st).

(** [queryset.order_by("-number")]: a stable sort, largest number first. *)
Fixpoint insert_desc (b : Build) (l : list Build) : list Build :=
  match l with
  | [] => [b]
  | x :: l' =>
      if (b_number x <? b_number b)%Z then b :: l
      else x :: insert_desc b l'
  end.

Fixpoint order_by_number_desc (l : list Build) : list Build :=
  match l with
  | [] => []
  | b :: l' => insert_desc b (order_by_number_desc l')
  end.

(** [Dependency.get_current_build] *)
Definition get_current_build (st : Store) (self : Dependency) : option Build :=
  match d_job self with
  | Some job =>
      let finished_builds :=
        filter (fun b => String.eqb (b_phase b) "FINISHED") (build_set st job) in
      if 0 <? List.length finished_builds
      then hd_error (order_by_number_desc finished_builds)
      else None
  | None => None
  end.

(** [generate_projectbuild_id], with [timezone.now()] passed as [today]. *)
Definition generate_projectbuild_id (st : Store) (project : nat)
    (today : datetime) : option string :=
  let lo := replace_hms today 0 0 0 in
  let hi := replace_hms today 23 59 59 in
  let today_count :=
    List.length (filter (fun pb => dt_gtb (pb_requested_at pb) lo
                              && dt_leb (pb_requested_at pb) hi
                              && (pb_project pb =? project))
                   (projectbuilds st)) in
  strftime_Ymd today ("." ++ dec today_count).

(** The key as the specification words it: the date of [now], a dot, and the
    number of the project's builds requested within [now]'s calendar day. *)
Definition GenerateKey_spec (st : Store) (project : nat)
    (now : datetime) : option string :=
  let count :=
    List.length (filter (fun pb => same_day (pb_requested_at pb) now
                              && (pb_project pb =? project))
                   (projectbuilds st)) in
  strftime_Ymd now ("." ++ dec count).

(** [job.dependency_set.all()] *)
Definition dependency_set (st : Store) (job : nat) : list Dependency :=
  filter (fun d => opt_nat_eqb (d_job d) (Some job)) (dependencies st).

(** [dependency.projectdependency_set.filter(auto_track=True)] *)
Definition auto_tracked_set (st : Store) (d : Dependency) : list ProjectDependency :=
  filter (fun pd => pd_auto_track pd)
         (filter (fun pd => pd_dependency pd =? d_pk d) (project_dependencies st)).

(** [project_dependency.save()]: the row with the instance's primary key is
    overwritten with the instance's fields. *)
Definition save_project_dependency (pd : ProjectDependency) (st : Store) : Store :=
  set_project_dependencies st
    (map (fun r => if pd_pk r =? pd_pk pd then pd else r) (project_dependencies st)).

Definition with_current_build (pd : ProjectDependency) (b : option nat)
    : ProjectDependency :=
  mkProjectDependency (pd_pk pd) (pd_dependency pd) (pd_project pd)
                      (pd_auto_track pd) b.

(** [ProjectDependency.objects.get(pk=...)], as the tests reload a row. *)
Definition get_project_dependency (st : Store) (pk : nat)
    : option ProjectDependency :=
  find (fun r => pd_pk r =? pk) (project_dependencies st).

(** [Project.get_current_artifacts]: the artifacts whose build is among the
    current builds of the project's dependencies.  A NULL current build
    matches no artifact. *)
Definition Project_get_current_artifacts (st : Store) (self : Project)
    : list Artifact :=
  let current_builds :=
    map pd_current_build
        (filter (fun pd => pd_project pd =? p_pk self) (project_dependencies st)) in
  filter (fun a => existsb (fun cb => opt_nat_eqb cb (Some (a_build a)))
                           current_builds)
         (artifacts st).

(** [ProjectBuild.get_current_artifacts]: the artifacts of the builds whose
    [build_id] is the ProjectBuild's key. *)
Definition ProjectBuild_get_current_artifacts (st : Store) (self : ProjectBuild)
    : list Artifact :=
  filter (fun a => existsb (fun b => (b_pk b =? a_build a)
                                     && String.eqb (b_build_id b) (pb_build_key self))
                           (builds st))
         (artifacts st).

(** [handle_new_build], the post_save receiver for [Build]. *)
Definition handle_new_build (instance : Build) (st : Store) : Store :=
  if 0 <? List.length (dependency_set st (b_job instance)) then
    fold_left
      (fun st dependency =>
         fold_left
           (fun st project_dependency =>
              save_project_dependency
                (with_current_build project_dependency (Some (b_pk instance))) st)
           (auto_tracked_set st dependency) st)
      (dependency_set st (b_job instance)) st
  else st.

Definition with_key (pb : ProjectBuild) (key : string) : ProjectBuild :=
  mkProjectBuild (pb_pk pb) (pb_project pb) (pb_requested_by pb)
                 (pb_requested_at pb) (pb_ended_at pb) (pb_status pb)
                 (pb_phase pb) key.

Definition with_pk_requested_at (pb : ProjectBuild) (pk : nat) (t : datetime)
    : ProjectBuild :=
  mkProjectBuild pk (pb_project pb) (pb_requested_by pb) t (pb_ended_at pb)
                 (pb_status pb) (pb_phase pb) (pb_build_key pb).

(** [models.Model.save] for a ProjectBuild: a row with the instance's key is
    updated; otherwise a row is inserted, with a fresh key when the instance
    has none, and [requested_at] set by [auto_now_add]. *)
Definition Model_save (now : datetime) (pk : option nat) (self : ProjectBuild)
    (st : Store) : Store * ProjectBuild :=
  match pk with
  | Some k =>
      if existsb (fun r => pb_pk r =? k) (projectbuilds st) then
        let row := with_pk_requested_at self k (pb_requested_at self) in
        (mkStore (builds st) (artifacts st) (dependencies st) (projects st)
                 (project_dependencies st)
                 (map (fun r => if pb_pk r =? k then row else r) (projectbuilds st))
                 (projectbuild_dependencies st) (archives st)
                 (archive_artifacts st),
         row)
      else
        let row := with_pk_requested_at self k now in
        (mkStore (builds st) (artifacts st) (dependencies st) (projects st)
                 (project_dependencies st) (projectbuilds st ++ [row])%list
                 (projectbuild_dependencies st) (archives st)
                 (archive_artifacts st),
         row)
  | None =>
      let k := S (fold_right (fun r m => Nat.max (pb_pk r) m) 0 (projectbuilds st)) in
      let row := with_pk_requested_at self k now in
      (mkStore (builds st) (artifacts st) (dependencies st) (projects st)
               (project_dependencies st) (projectbuilds st ++ [row])%list
               (projectbuild_dependencies st) (archives st)
               (archive_artifacts st),
       row)
  end.

(** [ProjectBuild.save]: an instance without a key of its own ([not self.pk])
    gets its [build_id] from [generate_projectbuild_id], evaluated at
    [today]; then the row is written at [now].  [None] is the ValueError of
    [strftime]. *)
Definition ProjectBuild_save (today now : datetime) (pk : option nat)
    (self : ProjectBuild) (st : Store) : option (Store * ProjectBuild) :=
  match pk with
  | None | Some 0 =>
      match generate_projectbuild_id st (pb_project self) today with
      | Some key => Some (Model_save now pk (with_key self key) st)
      | None => None
      end
  | Some _ => Some (Model_save now pk self st)
  end.

End Projects.

(* ------------------------------------------------------------------ *)
(** ** projects/tasks.py: reconciling an incoming build

    The sources of projects/tasks.py and projects/helpers.py are not
    available; projects/tests/test_tasks.py and archives/tests/test_tasks.py
    exercise them.  The definitions of this module follow sections 4.1 and
    4.3 of the specification, step by step, on top of [handle_new_build] and
    [generate_projectbuild_id] of projects/models.py; where the
    specification leaves a choice, the one the tests require is taken. *)

Module ProjectTasks.
Import Projects.

Definition INCOMPLETE : string := "INCOMPLETE".
Definition SUCCESS : string := "SUCCESS".
Definition FAILURE : string := "FAILURE".

(** Modelled from the spec: the phase a ProjectBuild is created with is not
    given ("mirrors underlying build phases"); it is a phase no build
    notification reports, so a fresh ProjectBuild is not terminal. *)
Definition UNKNOWN : string := "UNKNOWN".

(** [ProjectBuild(project=..., requested_by=...)] saved at [now]: the
    defaults of the model in projects/models.py (status INCOMPLETE, ended_at
    NULL), the generated key, and the initial phase. *)
Definition new_projectbuild (pk project : nat) (user : option nat)
    (now : datetime) (key : string) : ProjectBuild :=
  mkProjectBuild pk project user now None INCOMPLETE UNKNOWN key.

Definition get_projectbuild (st : Store) (pk : nat) : option ProjectBuild :=
  find (fun pb => pb_pk pb =? pk) (projectbuilds st).

Definition get_projectbuild_dependency (st : Store) (pk : nat)
    : option ProjectBuildDependency :=
  find (fun r => pbd_pk r =? pk) (projectbuild_dependencies st).

(** Modelled from the spec: step 1 of ReconcileBuild in projects/tasks.py,
    the dependencies whose job is the build's job. *)
Definition dependency_matches (st : Store) (build : Build) (dpk : nat) : bool :=
  existsb (fun d => d_pk d =? dpk) (dependency_set st (b_job build)).

(** Modelled from the spec: step 3 of ReconcileBuild in projects/tasks.py.
    A pending row is an unbound row of a ProjectBuild whose key is the
    build's [build_id], for a dependency of the build's job; a row that is
    already bound is not bound again. *)
Definition pending_row (st : Store) (build : Build)
    (r : ProjectBuildDependency) : bool :=
  match pbd_build r with
  | Some _ => false
  | None =>
      dependency_matches st build (pbd_dependency r)
      && match get_projectbuild st (pbd_projectbuild r) with
         | Some pb => String.eqb (pb_build_key pb) (b_build_id build)
         | None => false
         end
  end.

Definition bind_build (build : Build) (r : ProjectBuildDependency)
    : ProjectBuildDependency :=
  mkProjectBuildDependency (pbd_pk r) (pbd_projectbuild r)
                           (Some (b_pk build)) (pbd_dependency r).

(** Modelled from the spec: the ProjectBuilds touched in step 3 of
    ReconcileBuild, the owners of the rows that get bound. *)
Definition touched (st : Store) (build : Build) : list nat :=
  map pbd_projectbuild
      (filter (pending_row st build) (projectbuild_dependencies st)).

(** Modelled from the spec: step 3 of ReconcileBuild, binding the build
    onto every pending row. *)
Definition bind_pending_rows (st : Store) (build : Build) : Store :=
  set_projectbuild_dependencies st
    (map (fun r => if pending_row st build r then bind_build build r else r)
         (projectbuild_dependencies st)).

(** [ProjectBuildDependency.objects.filter(projectbuild=...)] *)
Definition rows_of (st : Store) (pbpk : nat) : list ProjectBuildDependency :=
  filter (fun r => pbd_projectbuild r =? pbpk) (projectbuild_dependencies st).

Definition bound_build (st : Store) (r : ProjectBuildDependency) : option Build :=
  match pbd_build r with
  | Some bpk => get_build st bpk
  | None => None
  end.

Definition bound_finalized (st : Store) (r : ProjectBuildDependency) : bool :=
  match bound_build st r with
  | Some b => String.eqb (b_phase b) FINALIZED
  | None => false
  end.

Definition bound_success (st : Store) (r : ProjectBuildDependency) : bool :=
  match bound_build st r with
  | Some b => String.eqb (b_status b) SUCCESS
  | None => false
  end.

(** Modelled from the spec: step 4 of ReconcileBuild in projects/tasks.py,
    the finalization check on one ProjectBuild.  Only an INCOMPLETE
    ProjectBuild whose rows are all bound to FINALIZED builds changes: its
    status becomes SUCCESS when every bound build has status SUCCESS and
    FAILURE otherwise, [ended_at] becomes [now], the phase FINALIZED. *)
Definition finalize (st : Store) (now : datetime) (pb : ProjectBuild)
    : ProjectBuild :=
  if String.eqb (pb_status pb) INCOMPLETE
     && forallb (bound_finalized st) (rows_of st (pb_pk pb))
  then mkProjectBuild (pb_pk pb) (pb_project pb) (pb_requested_by pb)
         (pb_requested_at pb) (Some now)
         (if forallb (bound_success st) (rows_of st (pb_pk pb))
          then SUCCESS else FAILURE)
         FINALIZED (pb_build_key pb)
  else pb.

(** Modelled from the spec: step 4 applied to the ProjectBuilds touched in
    step 3. *)
Definition finalization_check (now : datetime) (st : Store)
    (owners : list nat) : Store :=
  set_projectbuilds st
    (map (fun pb => if existsb (fun k => k =? pb_pk pb) owners
                    then finalize st now pb else pb)
         (projectbuilds st)).

(** Modelled from the spec: step 5 of ReconcileBuild, the auto-aggregation
    trigger.  The project has an unfinished ProjectBuild pending for the
    dependency: an INCOMPLETE ProjectBuild of the project with a row for
    it. *)
Definition has_pending_projectbuild (st : Store) (project dpk : nat) : bool :=
  existsb (fun pb =>
             (pb_project pb =? project)
             && String.eqb (pb_status pb) INCOMPLETE
             && existsb (fun r => (pbd_projectbuild r =? pb_pk pb)
                                  && (pbd_dependency r =? dpk))
                        (projectbuild_dependencies st))
          (projectbuilds st).

(** Modelled from the spec: the trigger of step 5.  The project auto-tracks a
    dependency of the build's job and has no unfinished ProjectBuild pending
    for it.  [process_build_dependencies] evaluates it on the store the build
    arrives in: a project whose pending ProjectBuild takes the build in steps
    3 and 4 is not given an automatic one as well
    (test_build_with_several_projectbuild_dependencies and the archive tests
    count the rows and entries). *)
Definition wants_projectbuild (st : Store) (build : Build) (p : Project) : bool :=
  existsb (fun pd =>
             (pd_project pd =? p_pk p)
             && pd_auto_track pd
             && dependency_matches st build (pd_dependency pd)
             && negb (has_pending_projectbuild st (p_pk p) (pd_dependency pd)))
          (project_dependencies st).

(** The key an AutoField gives the next row of a table. *)
Definition next_pk {A : Type} (pk : A -> nat) (l : list A) : nat :=
  S (fold_right (fun x m => Nat.max (pk x) m) 0 l).

(** Modelled from the spec: the latest known build of a dependency within a
    project (step 5), the build of the most recently created bound row among
    the project's ProjectBuilds. *)
Definition latest_known_build (st : Store) (project dpk : nat) : option nat :=
  match
    find (fun r =>
            (pbd_dependency r =? dpk)
            && match pbd_build r with Some _ => true | None => false end
            && match get_projectbuild st (pbd_projectbuild r) with
               | Some pb => pb_project pb =? project
               | None => false
               end)
         (rev (projectbuild_dependencies st))
  with
  | Some r => pbd_build r
  | None => None
  end.

(** Modelled from the spec: the build a row of the new ProjectBuild starts
    with (step 5 and 4.3).  The arrived build for a dependency of its job;
    the latest known build, else [current_build], for another auto-tracked
    dependency; [current_build] for a dependency that is not auto-tracked. *)
Definition seed_build (st : Store) (build : Build) (project : nat)
    (pd : ProjectDependency) : option nat :=
  if dependency_matches st build (pd_dependency pd) then Some (b_pk build)
  else if pd_auto_track pd then
    match latest_known_build st project (pd_dependency pd) with
    | Some b => Some b
    | None => pd_current_build pd
    end
  else pd_current_build pd.

Fixpoint seed_rows (st : Store) (build : Build) (project pbpk pk : nat)
    (pds : list ProjectDependency) : list ProjectBuildDependency :=
  match pds with
  | [] => []
  | pd :: pds' =>
      mkProjectBuildDependency pk pbpk (seed_build st build project pd)
                               (pd_dependency pd)
      :: seed_rows st build project pbpk (S pk) pds'
  end.

(** Modelled from the spec: [build_project] of projects/helpers.py as step 5
    calls it (4.3 with no explicit dependencies, [automated], nothing
    queued), with the arrived build bound at once.  The key comes from
    [generate_projectbuild_id].  The finalization check of step 4 then runs
    on the new ProjectBuild, as on any ProjectBuild the build is bound in:
    with every row bound to a FINALIZED build it is finished at once
    (test_link_artifact_in_archive promotes its project-scoped entry). *)
Definition create_projectbuild (now : datetime) (build : Build) (p : Project)
    (st : Store) : option Store :=
  match generate_projectbuild_id st (p_pk p) now with
  | None => None
  | Some key =>
      let pbpk := next_pk pb_pk (projectbuilds st) in
      let pds := filter (fun pd => pd_project pd =? p_pk p)
                        (project_dependencies st) in
      let rows := seed_rows st build (p_pk p) pbpk
                    (next_pk pbd_pk (projectbuild_dependencies st)) pds in
      let created :=
        set_projectbuild_dependencies
          (set_projectbuilds st
             (projectbuilds st ++ [new_projectbuild pbpk (p_pk p) None now key])%list)
          (projectbuild_dependencies st ++ rows)%list in
      Some (finalization_check now created [pbpk])
  end.

Fixpoint create_projectbuilds (now : datetime) (build : Build)
    (ps : list Project) (st : Store) : option Store :=
  match ps with
  | [] => Some st
  | p :: ps' =>
      match create_projectbuild now build p st with
      | Some st' => create_projectbuilds now build ps' st'
      | None => None
      end
  end.

(** Modelled from the spec: step 5 of ReconcileBuild, for a FINALIZED
    build only; [wanting] are the projects the trigger selected. *)
Definition auto_aggregate (now : datetime) (st : Store) (build : Build)
    (wanting : list Project) : option Store :=
  if String.eqb (b_phase build) FINALIZED
  then create_projectbuilds now build wanting st
  else Some st.

(** Modelled from the spec: [process_build_dependencies] of projects/tasks.py
    (section 4.1, ReconcileBuild).  [None] is a failed lookup of the build id
    or a key that cannot be generated; otherwise the new store and the build
    identifier, returned for chaining. *)
Definition process_build_dependencies (now : datetime) (st : Store)
    (build_pk : nat) : option (Store * nat) :=
  match get_build st build_pk with
  | None => None
  | Some build =>
      if 0 <? List.length (dependency_set st (b_job build)) then
        let wanting := filter (wants_projectbuild st build) (projects st) in
        let st2 := handle_new_build build st in
        let owners := touched st2 build in
        let st3 := bind_pending_rows st2 build in
        let st4 := finalization_check now st3 owners in
        match auto_aggregate now st4 build wanting with
        | Some st5 => Some (st5, build_pk)
        | None => None
        end
      else Some (st, build_pk)
  end.

(** A run of reconciliations, one per build event. *)
Fixpoint reconcile_all (events : list (datetime * nat)) (st : Store)
    : option Store :=
  match events with
  | [] => Some st
  | (now, build_pk) :: events' =>
      match process_build_dependencies now st build_pk with
      | Some (st', _) => reconcile_all events' st'
      | None => None
      end
  end.

End ProjectTasks.

(* ------------------------------------------------------------------ *)
(** ** archives: the transport, [Archive.add_build] and the archiving tasks

    The sources of archives/models.py, archives/tasks.py and
    archives/transports.py are not available; archives/tests/test_tasks.py
    exercises them.  The definitions of this module follow sections 4.5 and
    4.6 of the specification.  The tests drive the tasks through [LoggingTransport], a
    transport that records every call it receives.  The tasks below are
    written against that recording transport; which calls raise and how many
    bytes a fetch writes are left to the environment. *)

Module Archives.
Import Projects ProjectTasks.

(** The calls [LoggingTransport] logs, with the arguments it formats. *)
Inductive TransportCall :=
| START
| END
| ArchiveUrl (url path username password : string)
| GenerateChecksums (item : ArchiveArtifact)
| LinkToCurrent (path : string)
| LinkFilenameToFilename (source destination : string).

Inductive TaskError :=
| DoesNotExist
| TransportFailure.

(** What a task can observe and change: the transport's log, the messages
    given to [logging.info], and the persisted store. *)
Record World := mkWorld {
  transport_log : list TransportCall;
  logging_info : list string;
  db : Store
}.

(** Tasks run in a state monad over [World] with exceptions. *)
Definition Task (A : Type) : Type := World -> World * (A + TaskError).

Definition ret {A : Type} (a : A) : Task A := fun w => (w, inl a).

Definition raise {A : Type} (e : TaskError) : Task A := fun w => (w, inr e).

Definition bind {A B : Type} (m : Task A) (k : A -> Task B) : Task B :=
  fun w =>
    match m w with
    | (w', inl a) => k a w'
    | (w', inr e) => (w', inr e)
    end.

Notation "x <- m ;; k" := (bind m (fun x => k))
  (at level 61, m at next level, right associativity).
Notation "m ;;; k" := (bind m (fun _ => k))
  (at level 61, right associativity).

Definition get_db : Task Store := fun w => (w, inl (db w)).

Definition put_db (st : Store) : Task unit :=
  fun w => (mkWorld (transport_log w) (logging_info w) st, inl tt).

Definition info (msg : string) : Task unit :=
  fun w => (mkWorld (transport_log w) (logging_info w ++ [msg])%list (db w), inl tt).

Definition record_call (c : TransportCall) (w : World) : World :=
  mkWorld (transport_log w ++ [c])%list (logging_info w) (db w).

(** [Model.objects.get(pk=...)]: DoesNotExist when the row is absent. *)
Definition get_or_raise {A : Type} (o : option A) : Task A :=
  match o with
  | Some a => ret a
  | None => raise DoesNotExist
  end.

Fixpoint for_each {A : Type} (f : A -> Task unit) (l : list A) : Task unit :=
  match l with
  | [] => ret tt
  | x :: l' => f x ;;; for_each f l'
  end.

Definition get_archive_artifact (st : Store) (pk : nat) : option ArchiveArtifact :=
  find (fun i => aa_pk i =? pk) (archive_artifacts st).

Definition get_archive (st : Store) (pk : nat) : option Archive :=
  find (fun a => ar_pk a =? pk) (archives st).

Definition get_artifact (st : Store) (pk : nat) : option Artifact :=
  find (fun a => a_pk a =? pk) (artifacts st).

(** [get_default_archive] *)
Definition get_default_archive (st : Store) : option Archive :=
  find (fun a => ar_default a) (archives st).

(** [archive.get_archived_artifacts_for_build(build)] *)
Definition get_archived_artifacts_for_build (st : Store) (archive : Archive)
    (build : Build) : list ArchiveArtifact :=
  filter (fun i => (aa_archive i =? ar_pk archive) && (aa_build i =? b_pk build))
         (archive_artifacts st).

Section Environment.

(** Which transport calls raise, and the size a fetch of a URL writes. *)
Variable fails : TransportCall -> bool.
Variable fetched_size : string -> nat.

(** The archive policy (4.4): a pure function to the archived path. *)
Variable get_path_for_artifact :
  Archive -> Artifact -> Build -> option ProjectBuildDependency -> string.

(** *** The transport capability (4.6)

    Modelled from the spec: the six operations of archives/transports.py.
    Each records its call as [LoggingTransport] does; fetch, link, promote and
    checksum may raise. *)

Definition start : Task unit := fun w => (record_call START w, inl tt).

Definition end_ : Task unit := fun w => (record_call END w, inl tt).

Definition transport_call (c : TransportCall) : Task unit :=
  fun w => (record_call c w, if fails c then inr TransportFailure else inl tt).

Definition archive_url (url path username password : string) : Task nat :=
  transport_call (ArchiveUrl url path username password) ;;;
  ret (fetched_size url).

Definition generate_checksum (item : ArchiveArtifact) : Task unit :=
  transport_call (GenerateChecksums item).

Definition link_to_current (path : string) : Task unit :=
  transport_call (LinkToCurrent path).

Definition link_filename_to_filename (source destination : string) : Task unit :=
  transport_call (LinkFilenameToFilename source destination).

(** Modelled from the spec: the bracketed session of archives/tasks.py
    (4.5, 4.6).  [start()], the body, and [end()], which is called whether or
    not the body raised; the body's outcome is the session's. *)
Definition session {A : Type} (body : Task A) : Task A :=
  fun w =>
    let (w1, _) := start w in
    let (w2, r) := body w1 in
    let (w3, _) := end_ w2 in
    (w3, r).

(** *** Archive.add_build (4.5) *)

Definition pbds_for_build (st : Store) (build : Build)
    : list ProjectBuildDependency :=
  filter (fun r => opt_nat_eqb (pbd_build r) (Some (b_pk build)))
         (projectbuild_dependencies st).

Definition artifact_set (st : Store) (build : Build) : list Artifact :=
  filter (fun a => a_build a =? b_pk build) (artifacts st).

Definition new_archive_artifact (pk : nat) (archive : Archive) (build : Build)
    (artifact : Artifact) (pbd : option ProjectBuildDependency)
    : ArchiveArtifact :=
  mkArchiveArtifact pk (ar_pk archive) (a_pk artifact) (b_pk build)
    (option_map pbd_pk pbd)
    (get_path_for_artifact archive artifact build pbd) None None.

(** Modelled from the spec: the entries [Archive.add_build] creates for one
    artifact, the build-scoped one, then one per ProjectBuildDependency
    referencing the build, with consecutive keys. *)
Fixpoint project_scoped_items (pk : nat) (archive : Archive) (build : Build)
    (artifact : Artifact) (pbds : list ProjectBuildDependency)
    : list ArchiveArtifact :=
  match pbds with
  | [] => []
  | r :: pbds' =>
      new_archive_artifact pk archive build artifact (Some r)
      :: project_scoped_items (S pk) archive build artifact pbds'
  end.

Definition items_for_artifact (pk : nat) (archive : Archive) (build : Build)
    (pbds : list ProjectBuildDependency) (artifact : Artifact)
    : list ArchiveArtifact :=
  new_archive_artifact pk archive build artifact None
  :: project_scoped_items (S pk) archive build artifact pbds.

Fixpoint add_artifacts (archive : Archive) (build : Build)
    (pbds : list ProjectBuildDependency) (arts : list Artifact) (st : Store)
    : Store * list (Artifact * list ArchiveArtifact) :=
  match arts with
  | [] => (st, [])
  | artifact :: arts' =>
      let items :=
        items_for_artifact (next_pk aa_pk (archive_artifacts st))
                           archive build pbds artifact in
      let st' := set_archive_artifacts st (archive_artifacts st ++ items)%list in
      let (st'', rest) := add_artifacts archive build pbds arts' st' in
      (st'', (artifact, items) :: rest)
  end.

(** Modelled from the spec: [Archive.add_build] of archives/models.py
    (section 4.5, AddBuild); the result maps each artifact to its entries. *)
Definition add_build (archive : Archive) (build : Build) (st : Store)
    : Store * list (Artifact * list ArchiveArtifact) :=
  add_artifacts archive build (pbds_for_build st build) (artifact_set st build) st.

(** *** The archiving tasks *)

(** Modelled from the spec: the owning ProjectBuild of a
    ProjectBuildDependency has reached the terminal phase, FINALIZED. *)
Definition projectbuild_is_terminal (st : Store) (pbd_key : nat) : bool :=
  match get_projectbuild_dependency st pbd_key with
  | Some r =>
      match get_projectbuild st (pbd_projectbuild r) with
      | Some pb => String.eqb (pb_phase pb) FINALIZED
      | None => false
      end
  | None => false
  end.

(** Modelled from the spec: the promotion check of archives/tasks.py shared
    by ArchiveOne and LinkTwo.  The bound build is FINALIZED and the item has
    no ProjectBuildDependency or the owning ProjectBuild is terminal. *)
Definition should_link_to_current (st : Store) (item : ArchiveArtifact) : bool :=
  match get_build st (aa_build item) with
  | Some b =>
      String.eqb (b_phase b) FINALIZED
      && match aa_projectbuild_dependency item with
         | None => true
         | Some k => projectbuild_is_terminal st k
         end
  | None => false
  end.

Definition save_archive_artifact (item : ArchiveArtifact) : Task unit :=
  st <- get_db ;;
  put_db (set_archive_artifacts st
            (map (fun i => if aa_pk i =? aa_pk item then item else i)
                 (archive_artifacts st))).

Definition with_archived (item : ArchiveArtifact) (size : nat) (now : datetime)
    : ArchiveArtifact :=
  mkArchiveArtifact (aa_pk item) (aa_archive item) (aa_artifact item)
    (aa_build item) (aa_projectbuild_dependency item) (aa_archived_path item)
    (Some size) (Some now).

(** Modelled from the spec: [archive_artifact_from_jenkins] of
    archives/tasks.py (section 4.5, ArchiveOne). *)
Definition archive_artifact_from_jenkins (now : datetime) (item_pk : nat)
    : Task unit :=
  st <- get_db ;;
  item <- get_or_raise (get_archive_artifact st item_pk) ;;
  archive <- get_or_raise (get_archive st (aa_archive item)) ;;
  artifact <- get_or_raise (get_artifact st (aa_artifact item)) ;;
  session (
    size <- archive_url (a_url artifact) (aa_archived_path item)
                        (ar_username archive) (ar_password archive) ;;
    save_archive_artifact (with_archived item size now) ;;;
    st' <- get_db ;;
    if should_link_to_current st' item
    then link_to_current (aa_archived_path item)
    else ret tt).

(** Modelled from the spec: [link_artifact_in_archive] of archives/tasks.py
    (section 4.5, LinkTwo). *)
Definition link_artifact_in_archive (item1_pk item2_pk : nat) : Task unit :=
  st <- get_db ;;
  item1 <- get_or_raise (get_archive_artifact st item1_pk) ;;
  item2 <- get_or_raise (get_archive_artifact st item2_pk) ;;
  session (
    link_filename_to_filename (aa_archived_path item1) (aa_archived_path item2) ;;;
    if should_link_to_current st item2
    then link_to_current (aa_archived_path item2)
    else ret tt).

(** Modelled from the spec: [generate_checksums] of archives/tasks.py
    (section 4.5, GenerateChecksums). *)
Definition generate_checksums (build_pk : nat) : Task nat :=
  st <- get_db ;;
  match get_default_archive st with
  | None =>
      info "No default archiver - no checksum to generate" ;;;
      ret build_pk
  | Some archive =>
      build <- get_or_raise (get_build st build_pk) ;;
      session (for_each generate_checksum
                 (get_archived_artifacts_for_build st archive build)) ;;;
      ret build_pk
  end.

End Environment.

(** A log is bracketed when it is empty or one START, calls that are neither
    START nor END, and one END. *)
Definition is_bracket (c : TransportCall) : bool :=
  match c with
  | START | END => true
  | _ => false
  end.

Definition bracketed (log : list TransportCall) : Prop :=
  log = [] \/
  exists ops, log = (START :: ops ++ [END])%list
              /\ forallb (fun c => negb (is_bracket c)) ops = true.

Definition empty_world (st : Store) : World := mkWorld [] [] st.

End Archives.

(* ------------------------------------------------------------------ *)
(** ** jenkins/utils.py: DefaultSettings *)

Module JenkinsUtils.


Section DefaultSettings.

Variable V : Type.

(** The attributes of [django.conf.settings]: the outer [None] is an attribute
    that does not exist; an attribute that exists holds a Python value, which
    is Python's None ([Some None]) or a value of [V]. *)
Variable settings : string -> option (option V).

(** The attributes [__init__] sets on [self.defaults] from the dict. *)
Variable defaults : string -> option (option V).



End DefaultSettings.

(** *** parse_parameters_from_job

    An element of the tree [ET.fromstring] builds: tag, text (None for an
    element without text) and children in document order. *)
Inductive Element :=
| mkElement (tag : string) (text : option string) (children : list Element).

Definition el_tag (e : Element) : string :=
  match e with mkElement t _ _ => t end.

Definition el_text (e : Element) : option string :=
  match e with mkElement _ x _ => x end.

Definition el_children (e : Element) : list Element :=
  match e with mkElement _ _ cs => cs end.

(** [elem.iter(tag)]: the element itself when its tag matches, then its
    descendants, in document order. *)
Fixpoint iter_tag (tag : string) (e : Element) : list Element :=
  match e with
  | mkElement t _ cs =>
      ((if String.eqb t tag then [e] else [])
       ++ (fix over (l : list Element) : list Element :=
             match l with
             | [] => []
             | c :: l' => iter_tag tag c ++ over l'
             end) cs)%list
  end.

(** The step [//tag] of a path: [e.iter(tag)] without [e] itself. *)
Definition descendants (tag : string) (e : Element) : list Element :=
  flat_map (iter_tag tag) (el_children e).

(** The step [/tag] of a path. *)
Definition children_tagged (tag : string) (e : Element) : list Element :=
  filter (fun c => String.eqb (el_tag c) tag) (el_children e).

(** [root.findall(xpath)] for
    [".//hudson.model.ParametersDefinitionProperty/parameterDefinitions/"]:
    the trailing slash selects every child. *)
Definition findall_parameters (root : Element) : list Element :=
  flat_map el_children
    (flat_map (children_tagged "parameterDefinitions")
       (descendants "hudson.model.ParametersDefinitionProperty" root)).

(** A dict with string keys, as the pairs it holds; [item[key] = value]
    replaces the value of a key that is present. *)
Fixpoint dict_set (key : string) (value : option string)
    (d : list (string * option string)) : list (string * option string) :=
  match d with
  | [] => [(key, value)]
  | (k, v) :: d' =>
      if String.eqb k key then (k, value) :: d'
      else (k, v) :: dict_set key value d'
  end.

(** [item[key]]; [None] is KeyError. *)
Definition dict_get (key : string) (d : list (string * option string))
    : option (option string) :=
  option_map snd (find (fun kv => String.eqb (fst kv) key) d).

(** The dict of one parameter: [item[e.tag] = e.text] for every child
    ([param.findall("./")]). *)
Definition parameter_item (param : Element) : list (string * option string) :=
  fold_left (fun item e => dict_set (el_tag e) (el_text e) item)
            (el_children param) [].

(** [parse_parameters_from_job], on the root element that [ET.fromstring]
    returns for the body. *)
Definition parse_parameters_from_job (root : Element)
    : list (list (string * option string)) :=
  map parameter_item (findall_parameters root).

End JenkinsUtils.

(* ------------------------------------------------------------------ *)
(** ** projects/views.py: the pagination of a dependency's builds *)

Module ProjectViews.
Import Projects.

Inductive PageError :=
| PageNotAnInteger
| EmptyPage.

Section Paginator.

Variable A : Type.

(** [django.core.paginator.Paginator(object_list, per_page)], with no orphans
    and an empty first page allowed. *)
Variable object_list : list A.
Variable per_page : nat.

Definition count : nat := List.length object_list.

(** [ceil(max(1, count) / float(per_page))] *)
Definition num_pages : nat := (Nat.max 1 count + per_page - 1) / per_page.

(** [validate_number]; the argument is what [int(number)] gives, [None] when
    it raises TypeError or ValueError. *)
Definition validate_number (number : option Z) : Z + PageError :=
  match number with
  | None => inr PageNotAnInteger
  | Some n =>
      if (n <? 1)%Z then inr EmptyPage
      else if (Z.of_nat num_pages <? n)%Z then
        if (n =? 1)%Z then inl n else inr EmptyPage
      else inl n
  end.

(** [Paginator.page]: the items [object_list[bottom:top]]. *)
Definition page (number : option Z) : list A + PageError :=
  match validate_number number with
  | inr e => inr e
  | inl n =>
      let bottom := (Z.to_nat n - 1) * per_page in
      let top := bottom + per_page in
      let top := if count <=? top then count else top in
      inl (firstn (top - bottom) (skipn bottom object_list))
  end.

End Paginator.

Definition PAGINATE_BUILDS : nat := 5.

(** [Build.objects.filter(job=dependency.job)], in the model's default
    ordering ([-number]); no build has a NULL job. *)
Definition builds_of_dependency (st : Store) (dependency : Dependency)
    : list Build :=
  match d_job dependency with
  | Some job => order_by_number_desc (build_set st job)
  | None => []
  end.

(** [DependencyDetailView.paginate_builds].  [requested] is the [page]
    parameter of the request after [int()]. *)
Definition paginate_builds (st : Store) (dependency : Dependency)
    (requested : option Z) : list Build + PageError :=
  let builds_list := builds_of_dependency st dependency in
  match page Build builds_list PAGINATE_BUILDS requested with
  | inl builds => inl builds
  | inr PageNotAnInteger =>
      page Build builds_list PAGINATE_BUILDS (Some 1%Z)
  | inr EmptyPage =>
      page Build builds_list PAGINATE_BUILDS
           (Some (Z.of_nat (num_pages Build builds_list PAGINATE_BUILDS)))
  end.

End ProjectViews.

(* ------------------------------------------------------------------ *)
(** ** Notions used to state the properties *)

Module Notions.
Import Projects ProjectTasks Archives.

(** The first row of an ordered queryset carries the largest number. *)
Definition head_is_largest (l : list Build) : Prop :=
  match l with
  | [] => True
  | r :: t => forall y, In y t -> (b_number y <= b_number r)%Z
  end.

(** A ProjectDependency row is auto-tracking a dependency of the job. *)
Definition tracks (st : Store) (job : nat) (r : ProjectDependency) : bool :=
  pd_auto_track r
  && existsb (fun d => pd_dependency r =? d_pk d) (dependency_set st job).

(** [save()] on the table alone. *)
Definition save_row (x : ProjectDependency) (T : list ProjectDependency)
    : list ProjectDependency :=
  map (fun r => if pd_pk r =? pd_pk x then x else r) T.





(** The calls a loop of checksum generations issues: it stops at the first
    call that raises. *)
Fixpoint issued_checksums (fails : TransportCall -> bool)
    (items : list ArchiveArtifact) : list TransportCall :=
  match items with
  | [] => []
  | i :: items' =>
      GenerateChecksums i
      :: (if fails (GenerateChecksums i) then []
          else issued_checksums fails items')
  end.

(** The invariant of a ProjectBuild: unfinished with no end time and a
    non-terminal phase, or finished with an end time and phase FINALIZED. *)
Definition projectbuild_consistent (pb : ProjectBuild) : Prop :=
  (pb_status pb = INCOMPLETE /\ pb_ended_at pb = None
   /\ pb_phase pb <> FINALIZED)
  \/ ((pb_status pb = SUCCESS \/ pb_status pb = FAILURE)
      /\ pb_ended_at pb <> None /\ pb_phase pb = FINALIZED).


(** The last call of a log. *)
Definition last_call (log : list TransportCall) : option TransportCall :=
  match rev log with
  | [] => None
  | c :: _ => Some c
  end.

(** [st'] is [st] with ProjectBuilds and rows appended by the
    auto-aggregation of [build] at [now]: a new ProjectBuild has a fresh key
    and is either unfinished, as created, or finished at [now]; the new rows
    belong to the new ProjectBuilds, and a new row for a dependency of the
    build's job is bound to the build. *)
Definition fresh_projectbuild (now : datetime) (st : Store)
    (pb : ProjectBuild) : Prop :=
  next_pk pb_pk (projectbuilds st) <= pb_pk pb
  /\ ((pb_status pb = INCOMPLETE /\ pb_ended_at pb = None
       /\ pb_phase pb = UNKNOWN)
      \/ ((pb_status pb = SUCCESS \/ pb_status pb = FAILURE)
          /\ pb_ended_at pb = Some now /\ pb_phase pb = FINALIZED)).

Definition fresh_row (st : Store) (build : Build)
    (pbs : list ProjectBuild) (r : ProjectBuildDependency) : Prop :=
  next_pk pb_pk (projectbuilds st) <= pbd_projectbuild r
  /\ (exists pb, In pb pbs /\ pb_pk pb = pbd_projectbuild r)
  /\ (dependency_matches st build (pbd_dependency r) = true ->
      pbd_build r = Some (b_pk build)).

Definition extends (now : datetime) (build : Build) (st st' : Store) : Prop :=
  builds st' = builds st
  /\ artifacts st' = artifacts st
  /\ dependencies st' = dependencies st
  /\ projects st' = projects st
  /\ project_dependencies st' = project_dependencies st
  /\ archives st' = archives st
  /\ archive_artifacts st' = archive_artifacts st
  /\ exists pbs rows,
       projectbuilds st' = (projectbuilds st ++ pbs)%list
       /\ projectbuild_dependencies st'
          = (projectbuild_dependencies st ++ rows)%list
       /\ Forall (fresh_projectbuild now st) pbs
       /\ Forall (fresh_row st build pbs) rows.

(** Every ProjectBuild of the store satisfies the invariant. *)
Definition projectbuilds_consistent (st : Store) : Prop :=
  forall pb, In pb (projectbuilds st) -> projectbuild_consistent pb.

(** A row is bound to a build that the predicate accepts. *)
Definition row_bound_to (st : Store) (P : Build -> Prop)
    (r : ProjectBuildDependency) : Prop :=
  exists b, bound_build st r = Some b /\ P b.

(** The status of a ProjectBuild agrees with its rows: SUCCESS exactly when
    every row is bound to a FINALIZED build with status SUCCESS; FAILURE when
    every row is bound to a FINALIZED build and one of them has another
    status; INCOMPLETE while a row is unbound; and a status other than
    INCOMPLETE comes with phase FINALIZED and an end time. *)
Definition settled (st : Store) (pb : ProjectBuild) : Prop :=
  (pb_status pb = SUCCESS
   <-> forall r, In r (rows_of st (pb_pk pb)) ->
         row_bound_to st
           (fun b => b_phase b = FINALIZED /\ b_status b = SUCCESS) r)
  /\ ((forall r, In r (rows_of st (pb_pk pb)) ->
         row_bound_to st (fun b => b_phase b = FINALIZED) r) ->
      (exists r, In r (rows_of st (pb_pk pb))
                 /\ row_bound_to st (fun b => b_status b <> SUCCESS) r) ->
      pb_status pb = FAILURE)
  /\ ((exists r, In r (rows_of st (pb_pk pb)) /\ pbd_build r = None) ->
      pb_status pb = INCOMPLETE)
  /\ (pb_status pb <> INCOMPLETE ->
      pb_phase pb = FINALIZED /\ pb_ended_at pb <> None).

(** The ProjectBuild was finished by the reconciliation at [now]. *)
Definition finished_at (now : datetime) (pb : ProjectBuild) : Prop :=
  (pb_status pb = SUCCESS \/ pb_status pb = FAILURE)
  /\ pb_ended_at pb = Some now /\ pb_phase pb = FINALIZED.


(** A time of day a clock can show. *)
Definition valid_clock (t : datetime) : Prop :=
  hour t <= 23 /\ minute t <= 59 /\ second t <= 59.

(** The time is not within the first second after midnight. *)
Definition after_first_second (t : datetime) : bool :=
  negb ((hour t =? 0) && (minute t =? 0) && (second t =? 0)).

(** The number of the project's builds requested on the calendar day. *)
Definition day_count (st : Store) (project : nat) (now : datetime) : nat :=
  List.length (filter (fun pb => same_day (pb_requested_at pb) now
                                 && (pb_project pb =? project))
                      (projectbuilds st)).

(** The number of line feeds in a text. *)
Fixpoint count_newlines (s : string) : nat :=
  match s with
  | EmptyString => 0
  | String c s' =>
      (if Ascii.eqb c "010" then 1 else 0) + count_newlines s'
  end.

(** The text of the last child carrying the tag; [None] when there is none. *)
Definition last_text (tag : string) (children : list JenkinsUtils.Element)
    : option (option string) :=
  option_map JenkinsUtils.el_text
    (find (fun c => String.eqb (JenkinsUtils.el_tag c) tag) (rev children)).

End Notions.

(* ------------------------------------------------------------------ *)
(** ** Stores used as test fixtures *)

Module Fixtures.
Import Projects ProjectTasks Archives.

Definition empty_store : Store := mkStore [] [] [] [] [] [] [] [] [].

(** One job (1) with a dependency; builds 1..3 of the job, two FINISHED
    (as an unmigrated notification stores them) and one FINALIZED. *)
Definition dep1 : Dependency := mkDependency 1 "dep1" (Some 1).
Definition dep_nojob : Dependency := mkDependency 2 "dep2" None.

Definition finished_store : Store :=
  mkStore
    [ mkBuild 1 1 "" 4 "FINISHED" "SUCCESS";
      mkBuild 2 1 "" 7 "FINISHED" "SUCCESS";
      mkBuild 3 1 "" 9 FINALIZED "SUCCESS" ]
    [] [dep1; dep_nojob] [] [] [] [] [] [].

Definition finalized_store : Store :=
  mkStore
    [ mkBuild 1 1 "" 4 (translate_build_phase "FINISHED") "SUCCESS";
      mkBuild 2 1 "" 7 (translate_build_phase "FINISHED") "SUCCESS" ]
    [] [dep1; dep_nojob] [] [] [] [] [] [].

(** test_auto_track_build and test_new_build_with_no_auto_track_build: one
    dependency on job 1, tracked by project 1 and pinned by project 2, both
    at build 1; build 2 of the job arrives. *)
Definition build1 : Build := mkBuild 1 1 "" 1 FINALIZED "SUCCESS".
Definition build2 : Build := mkBuild 2 1 "" 2 FINALIZED "SUCCESS".
Definition tracked_pd : ProjectDependency := mkProjectDependency 1 1 1 true (Some 1).
Definition pinned_pd : ProjectDependency := mkProjectDependency 2 1 2 false (Some 1).

Definition tracking_store : Store :=
  mkStore [build1; build2] [] [dep1]
          [mkProject 1 "tracking"; mkProject 2 "pinned"]
          [tracked_pd; pinned_pd] [] [] [] [].

(** Two requests for project 1 on 12 March 2014: 250 microseconds
    after midnight, and at 10:30:00.000500. *)
Definition first_request : datetime := mkDatetime 2014 3 12 0 0 0 250.
Definition second_request : datetime := mkDatetime 2014 3 12 10 30 0 500.

Definition after_first_request : Store :=
  mkStore [] [] [] [mkProject 1 "project"] []
          [new_projectbuild 1 1 None first_request "20140312.0"] [] [] [].

(** test_process_build_artifacts_with_multiple_artifacts: a build with two
    artifacts that one ProjectBuildDependency row references, and a flat
    path policy. *)
Definition flat_path (archive : Archive) (artifact : Artifact) (build : Build)
    (pbd : option ProjectBuildDependency) : string :=
  match pbd with
  | None => dec (b_job build) ++ "/" ++ dec (b_pk build) ++ "/" ++ a_filename artifact
  | Some r => "project/" ++ dec (pbd_projectbuild r) ++ "/" ++ a_filename artifact
  end.

Definition local_archive : Archive := mkArchive 1 "local" "flat" "root" "testing" true.
Definition artifact1 : Artifact := mkArtifact 1 1 "testing/testing1.txt" "http://jenkins/1".
Definition artifact2 : Artifact := mkArtifact 2 1 "testing/testing2.txt" "http://jenkins/2".

Definition finalized_projectbuild : ProjectBuild :=
  mkProjectBuild 1 1 None first_request (Some second_request) SUCCESS FINALIZED
                 "20140312.0".

Definition two_artifacts_store : Store :=
  mkStore [mkBuild 1 1 "20140312.0" 1 FINALIZED "SUCCESS"]
          [artifact1; artifact2] [dep1] [mkProject 1 "project"]
          [mkProjectDependency 1 1 1 true (Some 1)]
          [finalized_projectbuild]
          [mkProjectBuildDependency 1 1 (Some 1) 1]
          [local_archive] [].

(** test_archive_artifact_from_non_finalized_projectbuild: two dependencies,
    the build of the first is FINALIZED and bound, the second row is still
    unbound, so the ProjectBuild is INCOMPLETE.  Entry 1 is build-scoped,
    entry 2 is project-scoped. *)
Definition dep2 : Dependency := mkDependency 3 "dep3" (Some 2).

Definition incomplete_projectbuild : ProjectBuild :=
  new_projectbuild 1 1 None first_request "20140312.0".

Definition build_scoped_item : ArchiveArtifact :=
  mkArchiveArtifact 1 1 1 1 None "1/1/testing/testing1.txt" None None.
Definition project_scoped_item : ArchiveArtifact :=
  mkArchiveArtifact 2 1 1 1 (Some 1) "project/1/testing/testing1.txt" None None.

Definition partial_store : Store :=
  mkStore [mkBuild 1 1 "20140312.0" 1 FINALIZED "SUCCESS"]
          [artifact1] [dep1; dep2] [mkProject 1 "project"]
          [mkProjectDependency 1 1 1 true (Some 1);
           mkProjectDependency 2 3 1 true None]
          [incomplete_projectbuild]
          [mkProjectBuildDependency 1 1 (Some 1) 1;
           mkProjectBuildDependency 2 1 None 3]
          [local_archive]
          [build_scoped_item; project_scoped_item].


Definition never_fails (c : TransportCall) : bool := false.
Definition size_21 (url : string) : nat := 21.

(** A transport whose fetches raise. *)
Definition fetch_fails (c : TransportCall) : bool :=
  match c with
  | ArchiveUrl _ _ _ _ => true
  | _ => false
  end.

(** test_project_build_status_when_all_dependencies_have_builds: a project
    with two dependencies, a ProjectBuild requested with nothing queued (two
    unbound rows), and a FINALIZED build of each job carrying its key. *)
Definition requested_store : Store :=
  mkStore [mkBuild 1 1 "20140312.0" 1 FINALIZED "SUCCESS";
           mkBuild 2 2 "20140312.0" 1 FINALIZED "SUCCESS"]
          [] [dep1; dep2] [mkProject 1 "project"]
          [mkProjectDependency 1 1 1 true None;
           mkProjectDependency 2 3 1 true None]
          [incomplete_projectbuild]
          [mkProjectBuildDependency 1 1 None 1;
           mkProjectBuildDependency 2 1 None 3]
          [] [].

Definition store_of (o : option (Store * nat)) : Store :=
  match o with
  | Some (st, _) => st
  | None => empty_store
  end.

Definition after_first_build : Store :=
  store_of (process_build_dependencies second_request requested_store 1).

Definition third_request : datetime := mkDatetime 2014 3 12 11 0 0 0.

Definition fourth_request : datetime := mkDatetime 2014 3 12 12 0 0 0.

Definition after_second_build : Store :=
  store_of (process_build_dependencies third_request after_first_build 2).

(** Project 1 with two ProjectBuilds requested on 12 March 2014, 250
    microseconds after midnight and at 11:00. *)
Definition two_requests_store : Store :=
  mkStore [] [] [] [mkProject 1 "project"] []
          [mkProjectBuild 1 1 None first_request (Some third_request)
                          SUCCESS FINALIZED "20140312.0";
           new_projectbuild 2 1 None third_request "20140312.1"]
          [] [] [].

(** test_link_artifact_in_archive: one project auto-tracking one dependency,
    no ProjectBuild, and a FINALIZED build of the dependency's job with one
    artifact. *)
Definition single_dependency_store : Store :=
  mkStore [mkBuild 1 1 "" 1 FINALIZED "SUCCESS"]
          [artifact1] [dep1] [mkProject 1 "project"]
          [mkProjectDependency 1 1 1 true None]
          [] [] [local_archive] [].

(** test_build_with_several_projectbuild_dependencies: two projects
    auto-track the dependency, the first has a requested ProjectBuild whose
    key the build carries.  The build has the phase the test factory gives,
    FINALIZED: the archive tests promote entries of builds made with the
    factory's defaults. *)
Definition several_projects_store : Store :=
  mkStore [mkBuild 1 1 "20140312.0" 1 FINALIZED "SUCCESS"]
          [] [dep1] [mkProject 1 "project1"; mkProject 2 "project2"]
          [mkProjectDependency 1 1 1 true None;
           mkProjectDependency 2 1 2 true None]
          [incomplete_projectbuild]
          [mkProjectBuildDependency 1 1 None 1]
          [] [].

(** test_archive_artifact_from_finalized_projectbuild (linking): the
    requested ProjectBuild of the scenario, both builds FINALIZED, an
    artifact on the second, and a default archive. *)
Definition linking_store : Store :=
  mkStore (builds requested_store)
          [mkArtifact 1 2 "testing/testing.txt" "http://jenkins/1"]
          (dependencies requested_store) (projects requested_store)
          (project_dependencies requested_store)
          (projectbuilds requested_store)
          (projectbuild_dependencies requested_store)
          [local_archive] [].

(** test_auto_track_dependency_triggers_project_build_creation: no
    ProjectBuild yet; the second dependency has a current build (5); a
    FINALIZED build (6) of the first dependency's job arrives. *)
Definition autotrack_store : Store :=
  mkStore [mkBuild 5 2 "" 1 FINALIZED "SUCCESS";
           mkBuild 6 1 "" 1 FINALIZED "SUCCESS"]
          [] [dep1; dep2] [mkProject 1 "project"]
          [mkProjectDependency 1 1 1 true None;
           mkProjectDependency 2 3 1 true (Some 5)]
          [] [] [] [].

(** The tracking store with an artifact on each of its two builds. *)
Definition build3 : Build := mkBuild 3 1 "" 3 FINALIZED "SUCCESS".

Definition tracking_store_with_artifacts : Store :=
  mkStore [build1; build2; build3]
          [mkArtifact 1 1 "one.txt" "http://jenkins/one";
           mkArtifact 2 2 "two.txt" "http://jenkins/two"]
          [dep1]
          [mkProject 1 "tracking"; mkProject 2 "pinned"]
          [tracked_pd; pinned_pd] [] [] [] [].



(** [splitlines] for texts whose only line boundary is the line feed. *)
Fixpoint lf_splitlines (s : string) : list string :=
  match s with
  | EmptyString => []
  | String c s' =>
      if Ascii.eqb c "010" then EmptyString :: lf_splitlines s'
      else match lf_splitlines s' with
           | [] => [String c EmptyString]
           | line :: lines => String c line :: lines
           end
  end.

(** Seven builds of job 1, numbered 1 to 7. *)
Definition seven_builds_store : Store :=
  mkStore [mkBuild 1 1 "" 1 FINALIZED "SUCCESS";
           mkBuild 2 1 "" 2 FINALIZED "SUCCESS";
           mkBuild 3 1 "" 3 FINALIZED "SUCCESS";
           mkBuild 4 1 "" 4 FINALIZED "SUCCESS";
           mkBuild 5 1 "" 5 FINALIZED "SUCCESS";
           mkBuild 6 1 "" 6 FINALIZED "SUCCESS";
           mkBuild 7 1 "" 7 FINALIZED "SUCCESS"]
          [] [dep1] [] [] [] [] [] [].

(** A job configuration with two parameters; the first one carries its name
    twice. *)
Definition leaf (tag text : string) : JenkinsUtils.Element :=
  JenkinsUtils.mkElement tag (Some text) [].

Definition job_config : JenkinsUtils.Element :=
  JenkinsUtils.mkElement "project" None
    [JenkinsUtils.mkElement "properties" None
       [JenkinsUtils.mkElement "hudson.model.ParametersDefinitionProperty" None
          [JenkinsUtils.mkElement "parameterDefinitions" None
             [JenkinsUtils.mkElement "hudson.model.StringParameterDefinition" None
                [leaf "name" "OLD_ID"; leaf "description" "The build";
                 leaf "name" "BUILD_ID"];
              JenkinsUtils.mkElement "hudson.model.StringParameterDefinition" None
                [leaf "name" "BRANCH_TO_CHECKOUT";
                 JenkinsUtils.mkElement "defaultValue" None []]]]]].

(** A ProjectBuild of project 2 requested on the same day as
    [finalized_projectbuild] of project 1: it carries the same key. *)
Definition other_project_projectbuild : ProjectBuild :=
  mkProjectBuild 2 2 None second_request None "INCOMPLETE" "INCOMPLETE"
                 "20140312.0".

End Fixtures.

(* ------------------------------------------------------------------ *)
(** * Properties *)

Import Projects ProjectTasks Archives Notions.

(** ** Dependency.get_current_build *)

Lemma In_insert_desc (b x : Build) (l : list Build) :
  In x (insert_desc b l) <-> x = b \/ In x l.
Proof.
  induction l as [|y l IH]; simpl.
  - intuition.
  - destruct (b_number y <? b_number b)%Z; simpl; rewrite ?IH; intuition.
Qed.

Lemma In_order_by_number_desc (x : Build) (l : list Build) :
  In x (order_by_number_desc l) <-> In x l.
Proof.
  induction l as [|y l IH]; simpl; [tauto|].
  rewrite In_insert_desc, IH. intuition.
Qed.

Lemma insert_desc_head (b : Build) (l : list Build) :
  head_is_largest l -> head_is_largest (insert_desc b l).
Proof.
  destruct l as [|x l]; simpl; [tauto|].
  intros Hx. destruct (b_number x <? b_number b)%Z eqn:E; simpl.
  - apply Z.ltb_lt in E. intros y [<-|Hy]; [lia|].
    specialize (Hx y Hy). lia.
  - apply Z.ltb_ge in E. intros y Hy.
    apply In_insert_desc in Hy. destruct Hy as [->|Hy]; auto.
Qed.

Lemma order_by_number_desc_head (l : list Build) :
  head_is_largest (order_by_number_desc l).
Proof.
  induction l as [|x l IH]; simpl; [exact I|].
  now apply insert_desc_head.
Qed.

Lemma hd_error_order_by_number_desc (l : list Build) (r : Build) :
  hd_error (order_by_number_desc l) = Some r ->
  In r l /\ forall y, In y l -> (b_number y <= b_number r)%Z.
Proof.
  intros H. pose proof (order_by_number_desc_head l) as Hmax.
  destruct (order_by_number_desc l) as [|r' t] eqn:E; [discriminate|].
  simpl in H. injection H as ->.
  split.
  - apply In_order_by_number_desc. rewrite E. now left.
  - intros y Hy. apply In_order_by_number_desc in Hy. rewrite E in Hy.
    destruct Hy as [->|Hy]; [lia|]. now apply Hmax.
Qed.

Lemma finished_builds_In (st : Store) (job : nat) (b : Build) :
  In b (filter (fun b => String.eqb (b_phase b) "FINISHED") (build_set st job))
  <-> In b (builds st) /\ b_job b = job /\ b_phase b = "FINISHED".
Proof.
  unfold build_set. rewrite !filter_In, Nat.eqb_eq, String.eqb_eq. tauto.
Qed.

Lemma translate_build_phase_not_FINISHED (phase : string) :
  translate_build_phase phase <> "FINISHED".
Proof.
  unfold translate_build_phase.
  destruct (String.eqb phase "FINISHED") eqn:E.
  - discriminate.
  - now apply String.eqb_neq.
Qed.

(** C10.  [get_current_build] returns None when the dependency has no job
    or when no build of the job has phase "FINISHED"; otherwise it returns a
    build of the job with phase "FINISHED" whose number is the largest among
    them.  A build stored with phase "FINALIZED", which is what
    [translate_build_phase] makes of a "FINISHED" notification, is never
    returned, and a job whose builds all went through that translation has
    no current build. *)
Theorem get_current_build_spec (st : Store) (d : Dependency) :
  (d_job d = None -> get_current_build st d = None)
  /\ (forall job, d_job d = Some job ->
        (forall b, In b (builds st) -> b_job b = job -> b_phase b <> "FINISHED") ->
        get_current_build st d = None)
  /\ (forall job, d_job d = Some job ->
        (exists b, In b (builds st) /\ b_job b = job /\ b_phase b = "FINISHED") ->
        exists r, get_current_build st d = Some r
                  /\ In r (builds st) /\ b_job r = job /\ b_phase r = "FINISHED"
                  /\ forall b, In b (builds st) -> b_job b = job ->
                               b_phase b = "FINISHED" ->
                               (b_number b <= b_number r)%Z)
  /\ (forall r, get_current_build st d = Some r -> b_phase r <> FINALIZED)
  /\ translate_build_phase "FINISHED" = FINALIZED
  /\ (forall job, d_job d = Some job ->
        (forall b, In b (builds st) -> b_job b = job ->
                   exists notified, b_phase b = translate_build_phase notified) ->
        get_current_build st d = None).
Proof.
  assert (Hnone : forall job, d_job d = Some job ->
            (forall b, In b (builds st) -> b_job b = job -> b_phase b <> "FINISHED") ->
            get_current_build st d = None).
  { intros job Hjob Hno. unfold get_current_build. rewrite Hjob.
    destruct (filter _ (build_set st job)) as [|x l] eqn:E; [reflexivity|].
    assert (Hx : In x (x :: l)) by now left.
    rewrite <- E in Hx. apply finished_builds_In in Hx.
    destruct Hx as (Hin & Hj & Hp). now destruct (Hno x Hin Hj). }
  assert (Hsome : forall r, get_current_build st d = Some r ->
            exists job, d_job d = Some job /\ In r (builds st) /\ b_job r = job
              /\ b_phase r = "FINISHED"
              /\ forall b, In b (builds st) -> b_job b = job ->
                           b_phase b = "FINISHED" ->
                           (b_number b <= b_number r)%Z).
  { intros r. unfold get_current_build.
    destruct (d_job d) as [job|]; [|discriminate].
    destruct (0 <? _); [|discriminate].
    intros H. apply hd_error_order_by_number_desc in H. destruct H as [Hin Hmax].
    apply finished_builds_In in Hin. destruct Hin as (Hin & Hj & Hp).
    exists job. repeat split; auto.
    intros b Hb Hbj Hbp. apply Hmax. now apply finished_builds_In. }
  split; [|split; [|split; [|split; [|split]]]].
  - intros H. unfold get_current_build. now rewrite H.
  - exact Hnone.
  - intros job Hjob (b & Hb & Hbj & Hbp).
    destruct (get_current_build st d) as [r|] eqn:E.
    + destruct (Hsome r eq_refl) as (job' & Hj' & Hr).
      rewrite Hjob in Hj'. injection Hj' as <-. now exists r.
    + exfalso. unfold get_current_build in E. rewrite Hjob in E.
      assert (Hf : In b (filter (fun b => String.eqb (b_phase b) "FINISHED")
                                (build_set st job)))
        by now apply finished_builds_In.
      destruct (filter _ (build_set st job)) as [|x l] eqn:Ef; [destruct Hf|].
      pose proof (In_order_by_number_desc x (x :: l)) as Hx.
      simpl in E. destruct (insert_desc x (order_by_number_desc l)) eqn:Ei.
      * assert (In x []) by (rewrite <- Ei; apply In_insert_desc; now left).
        contradiction.
      * discriminate.
  - intros r Hr. destruct (Hsome r Hr) as (_ & _ & _ & _ & Hp & _).
    rewrite Hp. discriminate.
  - reflexivity.
  - intros job Hjob Hall. apply (Hnone job Hjob).
    intros b Hb Hbj. destruct (Hall b Hb Hbj) as [n ->].
    apply translate_build_phase_not_FINISHED.
Qed.

(** The property at work: with two FINISHED builds and a FINALIZED build of
    larger number, the FINISHED build numbered 7 is current; once every phase
    went through [translate_build_phase] there is no current build. *)
Lemma get_current_build_spec_witness :
  (exists r, get_current_build Fixtures.finished_store Fixtures.dep1 = Some r
             /\ b_number r = 7%Z)
  /\ get_current_build Fixtures.finished_store Fixtures.dep_nojob = None
  /\ get_current_build Fixtures.finalized_store Fixtures.dep1 = None.
Proof.
  split; [|split].
  - destruct (get_current_build_spec Fixtures.finished_store Fixtures.dep1)
      as (_ & _ & H & _).
    destruct (H 1 eq_refl) as (r & Hr & _).
    + exists (mkBuild 2 1 "" 7 "FINISHED" "SUCCESS"). simpl. intuition.
    + exists r. split; [exact Hr|].
      vm_compute in Hr. injection Hr as <-. reflexivity.
  - apply (get_current_build_spec Fixtures.finished_store Fixtures.dep_nojob).
    reflexivity.
  - destruct (get_current_build_spec Fixtures.finalized_store Fixtures.dep1)
      as (_ & _ & _ & _ & _ & H).
    apply (H 1 eq_refl).
    intros b Hb _. exists "FINISHED".
    simpl in Hb. destruct Hb as [<-|[<-|[]]]; reflexivity.
Defined.

(** ** handle_new_build *)

Lemma project_dependencies_set (st : Store) (l : list ProjectDependency) :
  project_dependencies (set_project_dependencies st l) = l.
Proof. reflexivity. Qed.

Lemma set_project_dependencies_twice (st : Store) (l l' : list ProjectDependency) :
  set_project_dependencies (set_project_dependencies st l) l'
  = set_project_dependencies st l'.
Proof. reflexivity. Qed.

Lemma set_project_dependencies_same (st : Store) :
  set_project_dependencies st (project_dependencies st) = st.
Proof. now destruct st. Qed.

Lemma fold_save_table (v : option nat) (L : list ProjectDependency) (st : Store) :
  fold_left (fun st x => save_project_dependency (with_current_build x v) st) L st
  = set_project_dependencies st
      (fold_left (fun T x => save_row (with_current_build x v) T) L
                 (project_dependencies st)).
Proof.
  revert st. induction L as [|x L IH]; intros st; simpl.
  - now rewrite set_project_dependencies_same.
  - rewrite IH. unfold save_project_dependency.
    now rewrite set_project_dependencies_twice, project_dependencies_set.
Qed.

(** Saving each instance of [L] with its current build set rewrites exactly
    the rows whose key is in [L], as long as the instances agree with the
    rows they were loaded from. *)
Lemma fold_save_row (v : option nat) (L T : list ProjectDependency) :
  (forall x r, In x L -> In r T -> pd_pk r = pd_pk x ->
               with_current_build r v = with_current_build x v) ->
  fold_left (fun T x => save_row (with_current_build x v) T) L T
  = map (fun r => if existsb (fun x => pd_pk x =? pd_pk r) L
                  then with_current_build r v else r) T.
Proof.
  revert T. induction L as [|x L IH]; intros T Hagree; simpl.
  - now rewrite map_id.
  - rewrite IH.
    + unfold save_row. rewrite map_map. apply map_ext_in. intros r Hr.
      simpl. rewrite (Nat.eqb_sym (pd_pk x) (pd_pk r)).
      destruct (pd_pk r =? pd_pk x) eqn:E; simpl.
      * apply Nat.eqb_eq in E.
        rewrite <- (Hagree x r (or_introl eq_refl) Hr E).
        now destruct (existsb _ L).
      * reflexivity.
    + intros x' r1 Hx' Hr1 Hpk. unfold save_row in Hr1.
      apply in_map_iff in Hr1. destruct Hr1 as (r & <- & Hr).
      change (pd_pk (with_current_build x v)) with (pd_pk x) in *.
      destruct (pd_pk r =? pd_pk x) eqn:E.
      * apply Nat.eqb_eq in E. simpl in Hpk.
        change (with_current_build (with_current_build x v) v)
          with (with_current_build x v).
        rewrite <- (Hagree x r (or_introl eq_refl) Hr E).
        apply Hagree; [now right | exact Hr | congruence].
      * apply Hagree; [now right | exact Hr | exact Hpk].
Qed.

Lemma NoDup_map_eq {A : Type} (f : A -> nat) (l : list A) (a b : A) :
  NoDup (map f l) -> In a l -> In b l -> f a = f b -> a = b.
Proof.
  induction l as [|x l IH]; simpl; [tauto|].
  intros Hnd Ha Hb Hf. inversion Hnd as [|? ? Hx Hl]; subst.
  destruct Ha as [->|Ha], Hb as [->|Hb]; auto.
  - exfalso. apply Hx. rewrite Hf. now apply in_map.
  - exfalso. apply Hx. rewrite <- Hf. now apply in_map.
Qed.

Lemma existsb_pk_filter (P : ProjectDependency -> bool)
    (T : list ProjectDependency) (r : ProjectDependency) :
  NoDup (map pd_pk T) -> In r T ->
  existsb (fun x => pd_pk x =? pd_pk r) (filter P T) = P r.
Proof.
  intros Hnd Hr. destruct (P r) eqn:E.
  - apply existsb_exists. exists r. split.
    + now apply filter_In.
    + apply Nat.eqb_refl.
  - apply not_true_is_false. intros H. apply existsb_exists in H.
    destruct H as (x & Hx & Hpk). apply filter_In in Hx. destruct Hx as [Hx HP].
    apply Nat.eqb_eq in Hpk.
    rewrite (NoDup_map_eq pd_pk T x r Hnd Hx Hr Hpk) in HP. congruence.
Qed.

Lemma auto_tracked_set_filter (st : Store) (d : Dependency) :
  auto_tracked_set st d
  = filter (fun pd => pd_auto_track pd && (pd_dependency pd =? d_pk d))
           (project_dependencies st).
Proof.
  unfold auto_tracked_set.
  induction (project_dependencies st) as [|r T IH]; simpl; [reflexivity|].
  destruct (pd_dependency r =? d_pk d); simpl;
    destruct (pd_auto_track r); simpl; now rewrite ?IH.
Qed.

(** One pass of the inner loop. *)
Lemma inner_loop_table (v : option nat) (d : Dependency) (st : Store) :
  NoDup (map pd_pk (project_dependencies st)) ->
  fold_left (fun st x => save_project_dependency (with_current_build x v) st)
            (auto_tracked_set st d) st
  = set_project_dependencies st
      (map (fun r => if pd_auto_track r && (pd_dependency r =? d_pk d)
                     then with_current_build r v else r)
           (project_dependencies st)).
Proof.
  intros Hnd. rewrite fold_save_table. f_equal.
  rewrite auto_tracked_set_filter, fold_save_row.
  - apply map_ext_in. intros r Hr. now rewrite existsb_pk_filter.
  - intros x r Hx Hr Hpk. apply filter_In in Hx. destruct Hx as [Hx _].
    now rewrite (NoDup_map_eq pd_pk _ r x Hnd Hr Hx Hpk).
Qed.

Lemma map_pk_with_current_build (P : ProjectDependency -> bool) (v : option nat)
    (T : list ProjectDependency) :
  map pd_pk (map (fun r => if P r then with_current_build r v else r) T)
  = map pd_pk T.
Proof.
  rewrite map_map. apply map_ext. intros r. now destruct (P r).
Qed.

Lemma outer_loop_table (v : option nat) (deps : list Dependency) (st : Store) :
  NoDup (map pd_pk (project_dependencies st)) ->
  fold_left
    (fun st d =>
       fold_left (fun st x => save_project_dependency (with_current_build x v) st)
                 (auto_tracked_set st d) st)
    deps st
  = set_project_dependencies st
      (map (fun r => if pd_auto_track r
                        && existsb (fun d => pd_dependency r =? d_pk d) deps
                     then with_current_build r v else r)
           (project_dependencies st)).
Proof.
  revert st. induction deps as [|d deps IH]; intros st Hnd; simpl.
  - rewrite (map_ext _ (fun r => r)).
    + now rewrite map_id, set_project_dependencies_same.
    + intros r. now rewrite andb_false_r.
  - rewrite inner_loop_table by exact Hnd. rewrite IH.
    + rewrite set_project_dependencies_twice, project_dependencies_set. f_equal.
      rewrite map_map. apply map_ext. intros r.
      destruct (pd_auto_track r) eqn:Ea; simpl; [|now rewrite Ea].
      destruct (pd_dependency r =? d_pk d) eqn:Ed; simpl.
      * rewrite Ea. simpl. now destruct (existsb _ deps).
      * now rewrite Ea.
    + rewrite project_dependencies_set. now rewrite map_pk_with_current_build.
Qed.

(** What [handle_new_build] leaves in the table. *)
Lemma handle_new_build_table (instance : Build) (st : Store) :
  NoDup (map pd_pk (project_dependencies st)) ->
  handle_new_build instance st
  = set_project_dependencies st
      (map (fun r => if tracks st (b_job instance) r
                     then with_current_build r (Some (b_pk instance)) else r)
           (project_dependencies st)).
Proof.
  intros Hnd. unfold handle_new_build, tracks.
  destruct (dependency_set st (b_job instance)) as [|d deps] eqn:E.
  - simpl. rewrite (map_ext _ (fun r => r)).
    + now rewrite map_id, set_project_dependencies_same.
    + intros r. now rewrite andb_false_r.
  - change (0 <? List.length (d :: deps)) with true. cbv iota.
    now rewrite outer_loop_table.
Qed.

Lemma find_pk_map (f : ProjectDependency -> ProjectDependency)
    (T : list ProjectDependency) (k : nat) :
  (forall r, pd_pk (f r) = pd_pk r) ->
  find (fun r => pd_pk r =? k) (map f T)
  = option_map f (find (fun r => pd_pk r =? k) T).
Proof.
  intros Hf. induction T as [|r T IH]; simpl; [reflexivity|].
  rewrite Hf. now destruct (pd_pk r =? k).
Qed.

Lemma find_pk_In (T : list ProjectDependency) (pd : ProjectDependency) :
  NoDup (map pd_pk T) -> In pd T ->
  find (fun r => pd_pk r =? pd_pk pd) T = Some pd.
Proof.
  intros Hnd Hin.
  destruct (find (fun r => pd_pk r =? pd_pk pd) T) as [r|] eqn:E.
  - apply find_some in E. destruct E as [Hr Hpk]. apply Nat.eqb_eq in Hpk.
    now rewrite (NoDup_map_eq pd_pk T r pd Hnd Hr Hin Hpk).
  - exfalso. apply (find_none _ _ E) in Hin. now rewrite Nat.eqb_refl in Hin.
Qed.

(** C5.  For a dependency [d] bound to the job of the saved build, every
    ProjectDependency row referencing [d] with [auto_track] set has the
    build as its [current_build] afterwards, and every such row with
    [auto_track] unset is left as it was.  This holds for a build in any
    phase, FINALIZED included. *)
Theorem handle_new_build_auto_track (st : Store) (instance : Build)
    (d : Dependency) (pd : ProjectDependency) :
  NoDup (map pd_pk (project_dependencies st)) ->
  In d (dependencies st) ->
  d_job d = Some (b_job instance) ->
  In pd (project_dependencies st) ->
  pd_dependency pd = d_pk d ->
  get_project_dependency (handle_new_build instance st) (pd_pk pd)
  = Some (if pd_auto_track pd
          then with_current_build pd (Some (b_pk instance))
          else pd).
Proof.
  intros Hnd Hd Hjob Hpd Hdep.
  rewrite handle_new_build_table by exact Hnd.
  unfold get_project_dependency. rewrite project_dependencies_set.
  rewrite find_pk_map by (intros r; now destruct (tracks st (b_job instance) r)).
  rewrite find_pk_In by assumption. simpl. f_equal.
  unfold tracks. destruct (pd_auto_track pd); simpl; [|reflexivity].
  replace (existsb _ _) with true; [reflexivity|].
  symmetry. apply existsb_exists. exists d. split.
  - unfold dependency_set. apply filter_In. split; [exact Hd|].
    rewrite Hjob. simpl. apply Nat.eqb_refl.
  - rewrite Hdep. apply Nat.eqb_refl.
Qed.

(** Build 2 arrives: the tracking project moves to it, the pinned project
    stays on build 1. *)
Lemma handle_new_build_auto_track_witness :
  option_map pd_current_build
    (get_project_dependency
       (handle_new_build Fixtures.build2 Fixtures.tracking_store) 1)
  = Some (Some 2)
  /\ get_project_dependency
       (handle_new_build Fixtures.build2 Fixtures.tracking_store) 2
     = Some Fixtures.pinned_pd.
Proof.
  assert (Hnd : NoDup (map pd_pk (project_dependencies Fixtures.tracking_store))).
  { simpl. repeat constructor; simpl; intuition discriminate. }
  split.
  - pose proof (handle_new_build_auto_track Fixtures.tracking_store
                  Fixtures.build2 Fixtures.dep1 Fixtures.tracked_pd Hnd) as H.
    change (pd_pk Fixtures.tracked_pd) with 1 in H.
    rewrite H; simpl; auto.
  - apply (handle_new_build_auto_track Fixtures.tracking_store Fixtures.build2
             Fixtures.dep1 Fixtures.pinned_pd Hnd); simpl; auto.
Defined.

(** ** generate_projectbuild_id *)

(** C3.  The key is not always the day's count: [replace] keeps the
    microsecond of [now] and the lower bound is strict, so a ProjectBuild
    requested in the first second of the day can fall outside the window.
    The first request of the day gets "20140312.0"; with that build saved,
    the second request gets "20140312.0" again, where the count of the
    project's builds of that day gives "20140312.1". *)
Theorem generate_projectbuild_id_repeats_key :
  generate_projectbuild_id Fixtures.empty_store 1 Fixtures.first_request
  = Some "20140312.0"
  /\ generate_projectbuild_id Fixtures.after_first_request 1 Fixtures.second_request
     = Some "20140312.0"
  /\ GenerateKey_spec Fixtures.after_first_request 1 Fixtures.second_request
     = Some "20140312.1".
Proof. repeat split; vm_compute; reflexivity. Qed.

(** ** Archive.add_build *)

Section AddBuild.

Variable path : Archive -> Artifact -> Build -> option ProjectBuildDependency -> string.
Variable archive : Archive.
Variable build : Build.













End AddBuild.


(** ** The archiving tasks *)

Section ArchivingTasks.

Variable fails : TransportCall -> bool.
Variable fetched_size : string -> nat.


Lemma should_link_to_current_after_save (st : Store) (l : list ArchiveArtifact)
    (item : ArchiveArtifact) :
  should_link_to_current (set_archive_artifacts st l) item
  = should_link_to_current st item.
Proof. reflexivity. Qed.

(** The calls ArchiveOne issues once its rows are found. *)
Lemma archive_artifact_from_jenkins_log (now : datetime) (w : World) (pk : nat)
    (item : ArchiveArtifact) (archive : Archive) (artifact : Artifact) :
  get_archive_artifact (db w) pk = Some item ->
  get_archive (db w) (aa_archive item) = Some archive ->
  get_artifact (db w) (aa_artifact item) = Some artifact ->
  let fetch := ArchiveUrl (a_url artifact) (aa_archived_path item)
                          (ar_username archive) (ar_password archive) in
  let out := archive_artifact_from_jenkins fails fetched_size now pk w in
  transport_log (fst out)
  = (transport_log w
     ++ START :: (fetch :: if fails fetch then []
                           else if should_link_to_current (db w) item
                                then [LinkToCurrent (aa_archived_path item)]
                                else [])
     ++ [END])%list
  /\ (snd out = inr TransportFailure
      <-> fails fetch = true
          \/ (should_link_to_current (db w) item = true
              /\ fails (LinkToCurrent (aa_archived_path item)) = true)).
Proof.
  intros Hitem Harchive Hartifact. cbv zeta.
  unfold archive_artifact_from_jenkins, bind, get_db at 1. simpl.
  rewrite Hitem. simpl. rewrite Harchive. simpl. rewrite Hartifact. simpl.
  unfold session, start, archive_url, bind, transport_call, record_call. simpl.
  destruct (fails (ArchiveUrl _ _ _ _)) eqn:Ef; simpl.
  - rewrite <- !app_assoc. simpl. split; [reflexivity|]. tauto.
  - rewrite should_link_to_current_after_save.
    destruct (should_link_to_current (db w) item) eqn:El; simpl.
    + unfold link_to_current, transport_call, record_call. simpl.
      rewrite <- !app_assoc. simpl. split; [reflexivity|].
      destruct (fails (LinkToCurrent _)); simpl; intuition congruence.
    + rewrite <- !app_assoc. simpl. split; [reflexivity|].
      intuition congruence.
Qed.

(** The calls LinkTwo issues once its rows are found. *)
Lemma link_artifact_in_archive_log (w : World) (pk1 pk2 : nat)
    (item1 item2 : ArchiveArtifact) :
  get_archive_artifact (db w) pk1 = Some item1 ->
  get_archive_artifact (db w) pk2 = Some item2 ->
  let link := LinkFilenameToFilename (aa_archived_path item1)
                                     (aa_archived_path item2) in
  let out := link_artifact_in_archive fails pk1 pk2 w in
  transport_log (fst out)
  = (transport_log w
     ++ START :: (link :: if fails link then []
                          else if should_link_to_current (db w) item2
                               then [LinkToCurrent (aa_archived_path item2)]
                               else [])
     ++ [END])%list.
Proof.
  intros H1 H2. cbv zeta.
  unfold link_artifact_in_archive, bind, get_db at 1. simpl.
  rewrite H1. simpl. rewrite H2. simpl.
  unfold session, start, link_filename_to_filename, bind, transport_call,
    record_call. simpl.
  destruct (fails (LinkFilenameToFilename _ _)) eqn:Ef; simpl.
  - rewrite <- !app_assoc. reflexivity.
  - destruct (should_link_to_current (db w) item2) eqn:El; simpl.
    + rewrite <- !app_assoc. reflexivity.
    + rewrite <- !app_assoc. reflexivity.
Qed.

Lemma for_each_generate_checksum_cons (i : ArchiveArtifact)
    (items : list ArchiveArtifact) (w : World) :
  for_each (generate_checksum fails) (i :: items) w
  = if fails (GenerateChecksums i)
    then (record_call (GenerateChecksums i) w, inr TransportFailure)
    else for_each (generate_checksum fails) items
                  (record_call (GenerateChecksums i) w).
Proof.
  change (for_each (generate_checksum fails) (i :: items) w)
    with (bind (transport_call fails (GenerateChecksums i))
               (fun _ => for_each (generate_checksum fails) items) w).
  unfold bind, transport_call. now destruct (fails (GenerateChecksums i)).
Qed.

(** The loop of checksum generations. *)
Lemma for_each_generate_checksum (items : list ArchiveArtifact) (w : World) :
  let out := for_each (generate_checksum fails) items w in
  transport_log (fst out)
  = (transport_log w ++ issued_checksums fails items)%list
  /\ logging_info (fst out) = logging_info w
  /\ db (fst out) = db w
  /\ (snd out = inl tt \/ snd out = inr TransportFailure).
Proof.
  revert w. induction items as [|i items IH]; intros w; cbv zeta.
  - simpl. rewrite app_nil_r. auto.
  - rewrite for_each_generate_checksum_cons.
    destruct (fails (GenerateChecksums i)) eqn:Ef.
    + simpl. rewrite Ef. auto.
    + destruct (IH (record_call (GenerateChecksums i) w)) as (Hl & Hi & Hd & Hr).
      rewrite Hl, Hi, Hd. simpl. rewrite Ef, <- app_assoc. auto.
Qed.


Lemma issued_checksums_operations (items : list ArchiveArtifact) :
  forallb (fun c => negb (is_bracket c)) (issued_checksums fails items) = true.
Proof.
  induction items as [|i items IH]; simpl; [reflexivity|].
  now destruct (fails (GenerateChecksums i)).
Qed.

Lemma for_each_no_failure (items : list ArchiveArtifact) (w : World) :
  (forall i, In i items -> fails (GenerateChecksums i) = false) ->
  snd (for_each (generate_checksum fails) items w) = inl tt.
Proof.
  revert w. induction items as [|i items IH]; intros w H; [reflexivity|].
  rewrite for_each_generate_checksum_cons.
  rewrite (H i) by now left. apply IH. intros j Hj. apply H. now right.
Qed.

(** The outcome of GenerateChecksums with a default archive. *)
Lemma generate_checksums_run (w : World) (build_pk : nat) (archive : Archive)
    (build : Build) :
  get_default_archive (db w) = Some archive ->
  get_build (db w) build_pk = Some build ->
  let items := get_archived_artifacts_for_build (db w) archive build in
  let out := generate_checksums fails build_pk w in
  transport_log (fst out)
  = (transport_log w ++ START :: issued_checksums fails items ++ [END])%list
  /\ logging_info (fst out) = logging_info w
  /\ db (fst out) = db w
  /\ (snd out = inl build_pk \/ snd out = inr TransportFailure)
  /\ ((forall i, In i items -> fails (GenerateChecksums i) = false) ->
      snd out = inl build_pk).
Proof.
  intros Ha Hb. cbv zeta.
  unfold generate_checksums, bind, get_db at 1. simpl. rewrite Ha, Hb. simpl.
  unfold session, start.
  pose proof (for_each_generate_checksum
                (get_archived_artifacts_for_build (db w) archive build)
                (record_call START w)) as (Hl & Hi & Hd & Hr).
  pose proof (for_each_no_failure
                (get_archived_artifacts_for_build (db w) archive build)
                (record_call START w)) as Hok.
  cbv zeta in Hl, Hi, Hd, Hr.
  destruct (for_each _ _ (record_call START w)) as [w2 r]. simpl in *.
  assert (Hlog : (((transport_log w ++ [START]) ++ issued_checksums fails
            (get_archived_artifacts_for_build (db w) archive build)) ++ [END]
          = transport_log w ++ START ::
              issued_checksums fails
                (get_archived_artifacts_for_build (db w) archive build) ++ [END])%list).
  { rewrite <- !app_assoc. reflexivity. }
  destruct r as [[]|e]; simpl; rewrite Hl, Hi, Hd.
  - repeat split; auto.
  - destruct Hr as [Hr|Hr]; [discriminate|]. injection Hr as ->.
    repeat split; auto. intros Hno. specialize (Hok Hno). discriminate.
Qed.



Lemma bracketed_session (ops : list TransportCall) :
  forallb (fun c => negb (is_bracket c)) ops = true ->
  bracketed (START :: ops ++ [END]).
Proof. intros H. right. now exists ops. Qed.

Lemma last_call_session (ops : list TransportCall) :
  last_call (START :: ops ++ [END]) = Some END.
Proof.
  unfold last_call. simpl. now rewrite rev_app_distr.
Qed.

(** C9.  Whatever the transport does, the calls each archiving task issues
    are either none at all (a row or the default archive is missing) or one
    START, then calls that are neither START nor END, then one END; and when
    the task ends in a transport failure the session was opened and END is
    the last call issued. *)
Theorem transport_session_bracket (now : datetime) (st : Store) :
  (forall pk,
     let out := archive_artifact_from_jenkins fails fetched_size now pk
                  (empty_world st) in
     bracketed (transport_log (fst out))
     /\ (snd out = inr TransportFailure ->
         last_call (transport_log (fst out)) = Some END))
  /\ (forall pk1 pk2,
        let out := link_artifact_in_archive fails pk1 pk2 (empty_world st) in
        bracketed (transport_log (fst out))
        /\ (snd out = inr TransportFailure ->
            last_call (transport_log (fst out)) = Some END))
  /\ (forall build_pk,
        let out := generate_checksums fails build_pk (empty_world st) in
        bracketed (transport_log (fst out))
        /\ (snd out = inr TransportFailure ->
            last_call (transport_log (fst out)) = Some END)).
Proof.
  split; [|split].
  - intros pk. cbv zeta.
    destruct (get_archive_artifact st pk) as [item|] eqn:Hitem.
    2:{ unfold archive_artifact_from_jenkins, bind, get_db. simpl.
        rewrite Hitem. simpl. split; [now left|discriminate]. }
    destruct (get_archive st (aa_archive item)) as [archive|] eqn:Harchive.
    2:{ unfold archive_artifact_from_jenkins, bind, get_db. simpl.
        rewrite Hitem. simpl. rewrite Harchive. simpl.
        split; [now left|discriminate]. }
    destruct (get_artifact st (aa_artifact item)) as [artifact|] eqn:Hartifact.
    2:{ unfold archive_artifact_from_jenkins, bind, get_db. simpl.
        rewrite Hitem. simpl. rewrite Harchive. simpl. rewrite Hartifact. simpl.
        split; [now left|discriminate]. }
    destruct (archive_artifact_from_jenkins_log now (empty_world st) pk item
                archive artifact Hitem Harchive Hartifact) as [Hlog _].
    cbv zeta in Hlog. simpl in Hlog. rewrite Hlog. split.
    + apply (bracketed_session (_ :: _)). simpl.
      destruct (fails (ArchiveUrl _ _ _ _)); [reflexivity|].
      now destruct (should_link_to_current st item).
    + intros _. apply (last_call_session (_ :: _)).
  - intros pk1 pk2. cbv zeta.
    destruct (get_archive_artifact st pk1) as [item1|] eqn:H1.
    2:{ unfold link_artifact_in_archive, bind, get_db. simpl.
        rewrite H1. simpl. split; [now left|discriminate]. }
    destruct (get_archive_artifact st pk2) as [item2|] eqn:H2.
    2:{ unfold link_artifact_in_archive, bind, get_db. simpl.
        rewrite H1. simpl. rewrite H2. simpl. split; [now left|discriminate]. }
    pose proof (link_artifact_in_archive_log (empty_world st) pk1 pk2 item1 item2
                  H1 H2) as Hlog.
    cbv zeta in Hlog. simpl in Hlog. rewrite Hlog. split.
    + apply (bracketed_session (_ :: _)). simpl.
      destruct (fails (LinkFilenameToFilename _ _)); [reflexivity|].
      now destruct (should_link_to_current st item2).
    + intros _. apply (last_call_session (_ :: _)).
  - intros build_pk. cbv zeta.
    destruct (get_default_archive st) as [archive|] eqn:Ha.
    2:{ unfold generate_checksums, bind, get_db. simpl. rewrite Ha. simpl.
        split; [now left|discriminate]. }
    destruct (get_build st build_pk) as [build|] eqn:Hb.
    2:{ unfold generate_checksums, bind, get_db. simpl. rewrite Ha, Hb. simpl.
        split; [now left|discriminate]. }
    destruct (generate_checksums_run (empty_world st) build_pk archive build
                Ha Hb) as (Hl & _).
    cbv zeta in Hl. simpl in Hl. rewrite Hl. split.
    + apply bracketed_session. apply issued_checksums_operations.
    + intros _. apply last_call_session.
Qed.

End ArchivingTasks.



(** A fetch that raises: the task fails and the session is still closed. *)
Lemma transport_session_bracket_witness :
  snd (archive_artifact_from_jenkins Fixtures.fetch_fails Fixtures.size_21
         Fixtures.second_request 1 (empty_world Fixtures.partial_store))
  = inr TransportFailure
  /\ last_call
       (transport_log
          (fst (archive_artifact_from_jenkins Fixtures.fetch_fails
                  Fixtures.size_21 Fixtures.second_request 1
                  (empty_world Fixtures.partial_store))))
     = Some END.
Proof.
  split; [reflexivity|].
  destruct (transport_session_bracket Fixtures.fetch_fails Fixtures.size_21
              Fixtures.second_request Fixtures.partial_store) as (H & _).
  apply (H 1). reflexivity.
Defined.

(** ** Reconciling a build: how the steps change the store *)

(** [handle_new_build] writes the ProjectDependency table and nothing else. *)
Lemma handle_new_build_frame (instance : Build) (st : Store) :
  exists T, handle_new_build instance st = set_project_dependencies st T.
Proof.
  unfold handle_new_build. destruct (0 <? _).
  - generalize (dependency_set st (b_job instance)) as deps.
    intros deps.
    assert (H : forall (s : Store),
               (exists T, s = set_project_dependencies st T) ->
               exists T,
                 fold_left
                   (fun st0 d =>
                      fold_left
                        (fun st1 x =>
                           save_project_dependency
                             (with_current_build x (Some (b_pk instance))) st1)
                        (auto_tracked_set st0 d) st0)
                   deps s
                 = set_project_dependencies st T).
    { induction deps as [|d deps IH]; intros s [T ->]; simpl.
      - now exists T.
      - apply IH. rewrite fold_save_table.
        rewrite set_project_dependencies_twice. eauto. }
    apply H. exists (project_dependencies st).
    now rewrite set_project_dependencies_same.
  - exists (project_dependencies st). now rewrite set_project_dependencies_same.
Qed.

Lemma touched_after_handle_new_build (st : Store) (build : Build) :
  touched (handle_new_build build st) build = touched st build.
Proof.
  destruct (handle_new_build_frame build st) as [T ->]. reflexivity.
Qed.

Lemma find_projectbuild_map (f : ProjectBuild -> ProjectBuild)
    (l : list ProjectBuild) (k : nat) :
  (forall pb, pb_pk (f pb) = pb_pk pb) ->
  find (fun pb => pb_pk pb =? k) (map f l)
  = option_map f (find (fun pb => pb_pk pb =? k) l).
Proof.
  intros Hf. induction l as [|pb l IH]; simpl; [reflexivity|].
  rewrite Hf. now destruct (pb_pk pb =? k).
Qed.

Lemma find_app_some {A : Type} (f : A -> bool) (l l' : list A) (x : A) :
  find f l = Some x -> find f (l ++ l') = Some x.
Proof.
  induction l as [|y l IH]; simpl; [discriminate|].
  destruct (f y); auto.
Qed.

Lemma finalize_pk (st : Store) (now : datetime) (pb : ProjectBuild) :
  pb_pk (finalize st now pb) = pb_pk pb.
Proof. unfold finalize. now destruct (_ && _). Qed.


(** The two outcomes of the finalization check on one ProjectBuild. *)
Lemma finalize_cases (st : Store) (now : datetime) (pb : ProjectBuild) :
  (finalize st now pb = pb
   /\ (pb_status pb <> INCOMPLETE
       \/ forallb (bound_finalized st) (rows_of st (pb_pk pb)) = false))
  \/ (pb_status pb = INCOMPLETE
      /\ forallb (bound_finalized st) (rows_of st (pb_pk pb)) = true
      /\ pb_ended_at (finalize st now pb) = Some now
      /\ pb_phase (finalize st now pb) = FINALIZED
      /\ pb_status (finalize st now pb)
         = (if forallb (bound_success st) (rows_of st (pb_pk pb))
            then SUCCESS else FAILURE)).
Proof.
  unfold finalize.
  destruct (String.eqb (pb_status pb) INCOMPLETE) eqn:Es; simpl.
  - apply String.eqb_eq in Es.
    destruct (forallb (bound_finalized st) (rows_of st (pb_pk pb))) eqn:Ef.
    + right. simpl. auto.
    + left. auto.
  - apply String.eqb_neq in Es. left. auto.
Qed.

Lemma next_pk_bound {A : Type} (pk : A -> nat) (l : list A) (x : A) :
  In x l -> pk x < next_pk pk l.
Proof.
  unfold next_pk. induction l as [|y l IH]; simpl; [tauto|].
  intros [->|H]; [lia|]. specialize (IH H). lia.
Qed.

Lemma next_pk_app_le {A : Type} (pk : A -> nat) (l l' : list A) :
  next_pk pk l <= next_pk pk (l ++ l').
Proof.
  unfold next_pk. induction l as [|y l IH]; simpl; lia.
Qed.


Lemma extends_refl (now : datetime) (build : Build) (st : Store) :
  extends now build st st.
Proof.
  unfold extends. repeat split; auto.
  exists [], []. rewrite !app_nil_r. auto.
Qed.

Lemma dependency_matches_same (st st' : Store) (build : Build) (k : nat) :
  dependencies st' = dependencies st ->
  dependency_matches st' build k = dependency_matches st build k.
Proof.
  intros H. unfold dependency_matches, dependency_set. now rewrite H.
Qed.

Lemma extends_trans (now : datetime) (build : Build) (st st1 st2 : Store) :
  extends now build st st1 -> extends now build st1 st2 ->
  extends now build st st2.
Proof.
  intros (Hb & Ha & Hd & Hp & Hpd & Har & Haa & pbs & rows & Hpbs & Hrows & Fp & Fr)
         (Hb' & Ha' & Hd' & Hp' & Hpd' & Har' & Haa' & pbs' & rows' & Hpbs' & Hrows'
          & Fp' & Fr').
  unfold extends. repeat split; try congruence.
  exists (pbs ++ pbs')%list, (rows ++ rows')%list.
  split; [rewrite Hpbs', Hpbs; now rewrite app_assoc|].
  split; [rewrite Hrows', Hrows; now rewrite app_assoc|].
  assert (Hle : next_pk pb_pk (projectbuilds st) <= next_pk pb_pk (projectbuilds st1)).
  { rewrite Hpbs. apply next_pk_app_le. }
  split.
  - apply Forall_app. split; [exact Fp|].
    eapply Forall_impl; [|exact Fp']. intros pb (H1 & H2). split; [lia|exact H2].
  - apply Forall_app. split.
    + eapply Forall_impl; [|exact Fr]. intros r (H1 & (pb & Hin & Hpk) & H3).
      split; [exact H1|]. split; [|exact H3].
      exists pb. split; [apply in_or_app; now left|exact Hpk].
    + eapply Forall_impl; [|exact Fr']. intros r (H1 & (pb & Hin & Hpk) & H3).
      split; [lia|]. split.
      * exists pb. split; [apply in_or_app; now right|exact Hpk].
      * intros Hm. apply H3. now rewrite (dependency_matches_same st st1).
Qed.

Lemma seed_rows_fresh (st : Store) (build : Build) (project pbpk pk : nat)
    (pds : list ProjectDependency) (P : ProjectBuildDependency -> Prop) :
  (forall k pd, In pd pds ->
     P (mkProjectBuildDependency k pbpk (seed_build st build project pd)
                                 (pd_dependency pd))) ->
  Forall P (seed_rows st build project pbpk pk pds).
Proof.
  revert pk. induction pds as [|pd pds IH]; intros pk H; simpl; constructor.
  - apply H. now left.
  - apply IH. intros k pd' Hin. apply H. now right.
Qed.

(** The finalization check on the ProjectBuilds whose key is [k], when [k]
    is the key of the last ProjectBuild only. *)
Lemma finalization_check_last (now : datetime) (st : Store)
    (pbs : list ProjectBuild) (pb : ProjectBuild) :
  projectbuilds st = (pbs ++ [pb])%list ->
  (forall x, In x pbs -> pb_pk x < pb_pk pb) ->
  finalization_check now st [pb_pk pb]
  = set_projectbuilds st (pbs ++ [finalize st now pb])%list.
Proof.
  intros Hpbs Hlt. unfold finalization_check. f_equal.
  rewrite Hpbs, map_app. simpl. rewrite Nat.eqb_refl. simpl. f_equal.
  transitivity (map (fun x => x) pbs); [|apply map_id].
  apply map_ext_in. intros x Hx. specialize (Hlt x Hx).
  replace (pb_pk pb =? pb_pk x) with false; [reflexivity|].
  symmetry. apply Nat.eqb_neq. lia.
Qed.

(** The store a creation leaves: the ProjectBuild, after its finalization
    check, and its rows are appended. *)
Lemma create_projectbuild_tables (now : datetime) (build : Build) (p : Project)
    (st st' : Store) :
  create_projectbuild now build p st = Some st' ->
  exists key,
    let pbpk := next_pk pb_pk (projectbuilds st) in
    let rows := seed_rows st build (p_pk p) pbpk
                  (next_pk pbd_pk (projectbuild_dependencies st))
                  (filter (fun pd => pd_project pd =? p_pk p)
                          (project_dependencies st)) in
    let pb := new_projectbuild pbpk (p_pk p) None now key in
    let created :=
      set_projectbuild_dependencies
        (set_projectbuilds st (projectbuilds st ++ [pb])%list)
        (projectbuild_dependencies st ++ rows)%list in
    st' = set_projectbuilds created
            (projectbuilds st ++ [finalize created now pb])%list.
Proof.
  unfold create_projectbuild.
  destruct (generate_projectbuild_id st (p_pk p) now) as [key|]; [|discriminate].
  intros H. injection H as <-. exists key. cbv zeta.
  match goal with
  | |- finalization_check now ?c [?k] = _ =>
      apply (finalization_check_last now c (projectbuilds st)
               (new_projectbuild k (p_pk p) None now key))
  end.
  - reflexivity.
  - intros x Hx. simpl. now apply next_pk_bound.
Qed.

(** A ProjectBuild as created is left alone or finished by its check. *)
Lemma finalize_new (st : Store) (now : datetime) (pb : ProjectBuild) :
  pb_status pb = INCOMPLETE -> pb_ended_at pb = None -> pb_phase pb = UNKNOWN ->
  (pb_status (finalize st now pb) = INCOMPLETE
   /\ pb_ended_at (finalize st now pb) = None
   /\ pb_phase (finalize st now pb) = UNKNOWN)
  \/ finished_at now (finalize st now pb).
Proof.
  intros Hs He Hp.
  destruct (finalize_cases st now pb)
    as [[-> _]|(_ & _ & Hend & Hphase & Hstatus)]; [now left|].
  right. unfold finished_at. rewrite Hend, Hphase, Hstatus.
  split; [destruct (forallb _ _); auto|]. auto.
Qed.

Lemma create_projectbuild_extends (now : datetime) (build : Build) (p : Project)
    (st st' : Store) :
  create_projectbuild now build p st = Some st' -> extends now build st st'.
Proof.
  intros H. destruct (create_projectbuild_tables now build p st st' H) as [key ->].
  cbv zeta. unfold extends. repeat split.
  eexists _, _. split; [reflexivity|]. split; [reflexivity|]. split.
  - constructor; [|constructor]. unfold fresh_projectbuild.
    rewrite finalize_pk. split; [simpl; lia|].
    apply finalize_new; reflexivity.
  - apply seed_rows_fresh. intros k pd Hpd. unfold fresh_row. simpl.
    split; [lia|]. split.
    + eexists. split; [now left|]. now rewrite finalize_pk.
    + unfold seed_build. now intros ->.
Qed.

Lemma create_projectbuilds_extends (now : datetime) (build : Build)
    (ps : list Project) (st st' : Store) :
  create_projectbuilds now build ps st = Some st' -> extends now build st st'.
Proof.
  revert st. induction ps as [|p ps IH]; intros st; simpl.
  - intros H. injection H as <-. apply extends_refl.
  - destruct (create_projectbuild now build p st) as [st1|] eqn:E; [|discriminate].
    intros H. eapply extends_trans.
    + eapply create_projectbuild_extends. exact E.
    + now apply IH.
Qed.

Lemma auto_aggregate_extends (now : datetime) (build : Build) (st st' : Store)
    (wanting : list Project) :
  auto_aggregate now st build wanting = Some st' -> extends now build st st'.
Proof.
  unfold auto_aggregate. destruct (String.eqb _ _).
  - apply create_projectbuilds_extends.
  - intros H. injection H as <-. apply extends_refl.
Qed.




(** The store after a reconciliation, step by step. *)
Lemma process_build_dependencies_shape (now : datetime) (st st' : Store)
    (build_pk ret : nat) :
  process_build_dependencies now st build_pk = Some (st', ret) ->
  exists build,
    get_build st build_pk = Some build /\ ret = build_pk
    /\ ((dependency_set st (b_job build) = [] /\ st' = st)
        \/ (dependency_set st (b_job build) <> []
            /\ auto_aggregate now
                 (finalization_check now
                    (bind_pending_rows (handle_new_build build st) build)
                    (touched st build))
                 build (filter (wants_projectbuild st build) (projects st))
               = Some st'
            /\ extends now build
                 (finalization_check now
                    (bind_pending_rows (handle_new_build build st) build)
                    (touched st build))
                 st')).
Proof.
  unfold process_build_dependencies.
  destruct (get_build st build_pk) as [build|]; [|discriminate].
  intros H. exists build. split; [reflexivity|].
  destruct (dependency_set st (b_job build)) as [|d deps] eqn:Ed.
  - simpl in H. injection H as <- <-. auto.
  - change (0 <? List.length (d :: deps)) with true in H. cbv iota in H.
    cbv zeta in H. rewrite touched_after_handle_new_build in H.
    destruct (auto_aggregate now _ build _) as [st5|] eqn:Ea; [|discriminate].
    injection H as <- <-. split; [reflexivity|]. right.
    split; [discriminate|]. split; [reflexivity|].
    eapply auto_aggregate_extends. exact Ea.
Qed.

Lemma touched_dependency_set (st : Store) (build : Build) (k : nat) :
  In k (touched st build) -> dependency_set st (b_job build) <> [].
Proof.
  unfold touched. intros H. apply in_map_iff in H. destruct H as (r & _ & Hr).
  apply filter_In in Hr. destruct Hr as [_ Hp]. unfold pending_row in Hp.
  destruct (pbd_build r); [discriminate|].
  apply andb_prop in Hp. destruct Hp as [Hm _].
  unfold dependency_matches in Hm. intros E. rewrite E in Hm. discriminate.
Qed.

(** The tables after steps 2 to 4. *)
Lemma projectbuilds_after_check (now : datetime) (st : Store) (build : Build) :
  let st3 := bind_pending_rows (handle_new_build build st) build in
  let st4 := finalization_check now st3 (touched st build) in
  projectbuilds st4
  = map (fun pb => if existsb (fun k => k =? pb_pk pb) (touched st build)
                   then finalize st3 now pb else pb)
        (projectbuilds st)
  /\ projectbuild_dependencies st4 = projectbuild_dependencies st3
  /\ projectbuild_dependencies st3
     = map (fun r => if pending_row st build r then bind_build build r else r)
           (projectbuild_dependencies st)
  /\ builds st4 = builds st /\ builds st3 = builds st
  /\ dependencies st4 = dependencies st
  /\ projects st4 = projects st
  /\ project_dependencies st4 = project_dependencies (handle_new_build build st).
Proof.
  cbv zeta. destruct (handle_new_build_frame build st) as [T ->].
  repeat split.
Qed.

Lemma get_projectbuild_extends (now : datetime) (build : Build) (st st' : Store)
    (k : nat) (pb : ProjectBuild) :
  extends now build st st' ->
  get_projectbuild st k = Some pb -> get_projectbuild st' k = Some pb.
Proof.
  intros (_ & _ & _ & _ & _ & _ & _ & pbs & rows & Hpbs & _) H.
  unfold get_projectbuild in *. rewrite Hpbs. now apply find_app_some.
Qed.

Lemma rows_of_extends (now : datetime) (build : Build) (st st' : Store)
    (pb : ProjectBuild) :
  extends now build st st' -> In pb (projectbuilds st) ->
  rows_of st' (pb_pk pb) = rows_of st (pb_pk pb).
Proof.
  intros (_ & _ & _ & _ & _ & _ & _ & pbs & rows & _ & Hrows & _ & Fr) Hin.
  unfold rows_of. rewrite Hrows, filter_app.
  replace (filter _ rows) with (@nil ProjectBuildDependency);
    [now rewrite app_nil_r|].
  symmetry. apply (next_pk_bound pb_pk) in Hin. clear Hrows.
  induction Fr as [|r rows (Hr & _) _ IH]; simpl; [reflexivity|].
  replace (pbd_projectbuild r =? pb_pk pb) with false; [exact IH|].
  symmetry. apply Nat.eqb_neq. lia.
Qed.

Lemma bound_build_same (st st' : Store) (r : ProjectBuildDependency) :
  builds st' = builds st -> bound_build st' r = bound_build st r.
Proof.
  intros H. unfold bound_build, get_build. now rewrite H.
Qed.

Lemma forallb_bound_finalized (st : Store) (rows : list ProjectBuildDependency) :
  forallb (bound_finalized st) rows = true
  <-> forall r, In r rows -> row_bound_to st (fun b => b_phase b = FINALIZED) r.
Proof.
  rewrite forallb_forall. unfold bound_finalized, row_bound_to.
  split; intros H r Hr; specialize (H r Hr).
  - destruct (bound_build st r) as [b|]; [|discriminate].
    exists b. split; [reflexivity|]. now apply String.eqb_eq.
  - destruct H as (b & -> & Hb). now apply String.eqb_eq.
Qed.

Lemma forallb_bound_success (st : Store) (rows : list ProjectBuildDependency) :
  forallb (bound_success st) rows = true
  <-> forall r, In r rows -> row_bound_to st (fun b => b_status b = SUCCESS) r.
Proof.
  rewrite forallb_forall. unfold bound_success, row_bound_to.
  split; intros H r Hr; specialize (H r Hr).
  - destruct (bound_build st r) as [b|]; [|discriminate].
    exists b. split; [reflexivity|]. now apply String.eqb_eq.
  - destruct H as (b & -> & Hb). now apply String.eqb_eq.
Qed.

Lemma get_projectbuild_In (st : Store) (k : nat) (pb : ProjectBuild) :
  get_projectbuild st k = Some pb -> In pb (projectbuilds st) /\ pb_pk pb = k.
Proof.
  intros H. apply find_some in H. destruct H as [Hin Hk].
  now apply Nat.eqb_eq in Hk.
Qed.

(** ** The finalization of a ProjectBuild *)

(** The finalization check leaves an INCOMPLETE ProjectBuild in agreement
    with its rows. *)
Lemma finalize_settled (st : Store) (now : datetime) (pb : ProjectBuild) :
  pb_status pb = INCOMPLETE -> settled st (finalize st now pb).
Proof.
  intros Hinc. unfold settled. rewrite finalize_pk.
  pose proof (forallb_bound_finalized st (rows_of st (pb_pk pb))) as Hfin.
  pose proof (forallb_bound_success st (rows_of st (pb_pk pb))) as Hsuc.
  destruct (finalize_cases st now pb)
    as [[Hsame [Hne|Hnot]]|(_ & Hall & Hend & Hphase & Hstatus)].
  - contradiction.
  - (* some row is not bound to a FINALIZED build: nothing changes *)
    rewrite Hsame.
    assert (Hnofin : ~ forall r, In r (rows_of st (pb_pk pb)) ->
                         row_bound_to st (fun b => b_phase b = FINALIZED) r).
    { intros H. apply Hfin in H. congruence. }
    split; [|split; [|split]].
    + split.
      * intros H. rewrite Hinc in H. discriminate.
      * intros H. exfalso. apply Hnofin. intros r Hr.
        destruct (H r Hr) as (b & Hbb & Hp & _). exists b. auto.
    + intros H _. exfalso. now apply Hnofin.
    + auto.
    + intros H. contradiction.
  - (* every row is bound to a FINALIZED build: the transition *)
    pose proof (proj1 Hfin Hall) as Hallfin.
    split; [|split; [|split]].
    + rewrite Hstatus.
      destruct (forallb (bound_success st) (rows_of st (pb_pk pb))) eqn:Es.
      * split; [|reflexivity]. intros _ r Hr.
        destruct (Hallfin r Hr) as (b & Hbb & Hp).
        destruct (proj1 Hsuc eq_refl r Hr) as (b' & Hbb' & Hs).
        rewrite Hbb in Hbb'. injection Hbb' as <-. exists b. auto.
      * split; [discriminate|]. intros H. exfalso.
        assert (Hs : false = true).
        { apply Hsuc. intros r Hr.
          destruct (H r Hr) as (b & Hbb & _ & Hs). exists b. auto. }
        discriminate.
    + intros _ (r & Hr & Hbad). rewrite Hstatus.
      destruct (forallb (bound_success st) (rows_of st (pb_pk pb))) eqn:Es;
        [|reflexivity].
      exfalso. destruct Hbad as (b & Hbb & Hs).
      destruct (proj1 Hsuc eq_refl r Hr) as (b' & Hbb' & Hs').
      rewrite Hbb in Hbb'. injection Hbb' as <-. contradiction.
    + intros (r & Hr & Hnone). exfalso.
      destruct (Hallfin r Hr) as (b & Hbb & _).
      unfold bound_build in Hbb. rewrite Hnone in Hbb. discriminate.
    + intros _. rewrite Hphase, Hend. split; [reflexivity|discriminate].
Qed.


(** Agreement with the rows depends on the rows and the builds only. *)
Lemma settled_same (st st' : Store) (pb : ProjectBuild) :
  rows_of st' (pb_pk pb) = rows_of st (pb_pk pb) ->
  builds st' = builds st ->
  settled st pb -> settled st' pb.
Proof.
  intros Hr Hb (H1 & H2 & H3 & H4). unfold settled. rewrite Hr.
  assert (Hrb : forall (P : Build -> Prop) r,
             row_bound_to st' P r <-> row_bound_to st P r).
  { intros P r. unfold row_bound_to. now rewrite (bound_build_same st st' r Hb). }
  split; [|split; [|split]].
  - rewrite H1. split; intros H r Hin; apply Hrb; now apply H.
  - intros Ha (r & Hin & Hbad). apply H2.
    + intros r' Hr'. apply Hrb. now apply Ha.
    + exists r. split; [exact Hin|]. now apply Hrb.
  - exact H3.
  - exact H4.
Qed.

Lemma settled_extends (now : datetime) (build : Build) (st st' : Store)
    (pb : ProjectBuild) :
  extends now build st st' -> In pb (projectbuilds st) ->
  settled st pb -> settled st' pb.
Proof.
  intros Hext Hin. apply settled_same.
  - now apply (rows_of_extends now build).
  - now destruct Hext as (Hb & _).
Qed.

(** Step 3 leaves the rows of a ProjectBuild it does not touch. *)
Lemma rows_of_untouched (st : Store) (build : Build) (k : nat) :
  ~ In k (touched st build) ->
  filter (fun r => pbd_projectbuild r =? k)
         (map (fun r => if pending_row st build r then bind_build build r else r)
              (projectbuild_dependencies st))
  = rows_of st k.
Proof.
  intros Hk. unfold rows_of.
  assert (H : forall r, In r (projectbuild_dependencies st) ->
                        pbd_projectbuild r = k -> pending_row st build r = false).
  { intros r Hr Ho. destruct (pending_row st build r) eqn:Ep; [|reflexivity].
    exfalso. apply Hk. unfold touched. rewrite <- Ho.
    apply in_map. apply filter_In. auto. }
  induction (projectbuild_dependencies st) as [|r l IH]; simpl; [reflexivity|].
  destruct (pbd_projectbuild r =? k) eqn:Eo.
  - apply Nat.eqb_eq in Eo. rewrite (H r (or_introl eq_refl) Eo).
    rewrite <- Eo at 1. rewrite Nat.eqb_refl. f_equal.
    apply IH. intros r' Hr'. apply H. now right.
  - replace (pbd_projectbuild
               (if pending_row st build r then bind_build build r else r) =? k)
      with false.
    + apply IH. intros r' Hr'. apply H. now right.
    + destruct (pending_row st build r); simpl; now rewrite Eo.
Qed.

(** A touched ProjectBuild had an unbound row. *)
Lemma touched_unbound (st : Store) (build : Build) (k : nat) :
  In k (touched st build) ->
  exists r, In r (rows_of st k) /\ pbd_build r = None.
Proof.
  unfold touched. intros H. apply in_map_iff in H. destruct H as (r & Hk & Hr).
  apply filter_In in Hr. destruct Hr as [Hr Hp].
  exists r. split.
  - unfold rows_of. apply filter_In. split; [exact Hr|]. now apply Nat.eqb_eq.
  - unfold pending_row in Hp. now destruct (pbd_build r).
Qed.

(** After steps 2 to 4 every ProjectBuild that agreed with its rows still
    does. *)
Lemma check_settled (now : datetime) (st : Store) (build : Build)
    (pb : ProjectBuild) :
  let st3 := bind_pending_rows (handle_new_build build st) build in
  let st4 := finalization_check now st3 (touched st build) in
  settled st pb ->
  settled st4 (if existsb (fun k => k =? pb_pk pb) (touched st build)
               then finalize st3 now pb else pb).
Proof.
  cbv zeta. intros Hs.
  destruct (projectbuilds_after_check now st build)
    as (_ & Hrows4 & Hrows3 & Hb4 & Hb3 & _).
  cbv zeta in Hrows4, Hrows3, Hb4, Hb3.
  set (st3 := bind_pending_rows (handle_new_build build st) build) in *.
  set (st4 := finalization_check now st3 (touched st build)) in *.
  destruct (existsb _ _) eqn:Et.
  - apply existsb_exists in Et. destruct Et as (k & Hk & Ek).
    apply Nat.eqb_eq in Ek. subst k.
    assert (Hinc : pb_status pb = INCOMPLETE).
    { destruct Hs as (_ & _ & H3 & _). apply H3. now apply (touched_unbound st build). }
    apply (settled_same st3 st4).
    + unfold rows_of. now rewrite Hrows4.
    + now rewrite Hb4, Hb3.
    + now apply finalize_settled.
  - apply (settled_same st st4); [|exact Hb4|exact Hs].
    unfold rows_of at 1. rewrite Hrows4, Hrows3.
    apply rows_of_untouched. intros Hin.
    assert (Ht : existsb (fun k => k =? pb_pk pb) (touched st build) = true).
    { apply existsb_exists. exists (pb_pk pb). split; [exact Hin|apply Nat.eqb_refl]. }
    congruence.
Qed.

(** A created ProjectBuild agrees with its rows. *)
Lemma create_projectbuild_settled (now : datetime) (build : Build) (p : Project)
    (st st' : Store) :
  create_projectbuild now build p st = Some st' ->
  forall pb', In pb' (projectbuilds st') ->
    In pb' (projectbuilds st)
    \/ (settled st' pb' /\ fresh_projectbuild now st pb').
Proof.
  intros H pb' Hin.
  destruct (create_projectbuild_tables now build p st st' H) as [key E].
  cbv zeta in E. rewrite E in Hin. simpl in Hin.
  apply in_app_or in Hin. destruct Hin as [Hin|[<-|[]]]; [now left|].
  right. split.
  - rewrite E.
    match goal with
    | |- settled (set_projectbuilds ?c _) (finalize ?c now ?pb) =>
        apply (settled_same c); [reflexivity|reflexivity|];
        apply finalize_settled; reflexivity
    end.
  - unfold fresh_projectbuild. rewrite finalize_pk. split; [simpl; lia|].
    apply finalize_new; reflexivity.
Qed.

Lemma fresh_projectbuild_le (now : datetime) (st st1 : Store)
    (pb : ProjectBuild) :
  next_pk pb_pk (projectbuilds st) <= next_pk pb_pk (projectbuilds st1) ->
  fresh_projectbuild now st1 pb -> fresh_projectbuild now st pb.
Proof.
  intros Hle (H1 & H2). split; [lia|exact H2].
Qed.

Lemma extends_next_pk (now : datetime) (build : Build) (st st' : Store) :
  extends now build st st' ->
  next_pk pb_pk (projectbuilds st) <= next_pk pb_pk (projectbuilds st').
Proof.
  intros (_ & _ & _ & _ & _ & _ & _ & pbs & rows & Hpbs & _).
  rewrite Hpbs. apply next_pk_app_le.
Qed.

Lemma create_projectbuilds_settled (now : datetime) (build : Build)
    (ps : list Project) (st st' : Store) :
  create_projectbuilds now build ps st = Some st' ->
  forall pb', In pb' (projectbuilds st') ->
    In pb' (projectbuilds st)
    \/ (settled st' pb' /\ fresh_projectbuild now st pb').
Proof.
  revert st. induction ps as [|p ps IH]; intros st Hrun pb' Hin; simpl in Hrun.
  - injection Hrun as <-. now left.
  - destruct (create_projectbuild now build p st) as [s1|] eqn:E; [|discriminate].
    pose proof (create_projectbuild_extends now build p st s1 E) as Hext1.
    pose proof (create_projectbuilds_extends now build ps s1 st' Hrun) as Hext.
    pose proof (extends_next_pk now build st s1 Hext1) as Hle.
    destruct (IH s1 Hrun pb' Hin) as [Hin1|[Hs Hf]].
    + destruct (create_projectbuild_settled now build p st s1 E pb' Hin1)
        as [Hin0|[Hs Hf]]; [now left|].
      right. split; [|exact Hf].
      now apply (settled_extends now build s1 st').
    + right. split; [exact Hs|]. now apply (fresh_projectbuild_le now st s1).
Qed.

Lemma next_pk_map {A : Type} (pk : A -> nat) (f : A -> A) (l : list A) :
  (forall x, pk (f x) = pk x) -> next_pk pk (map f l) = next_pk pk l.
Proof.
  intros H. unfold next_pk. f_equal.
  induction l as [|x l IH]; simpl; [reflexivity|]. now rewrite H, IH.
Qed.

(** The ProjectBuilds of the store a reconciliation leaves: those of the
    store it started from, after the check of step 4, and the created ones,
    which agree with their rows. *)
Lemma process_build_dependencies_projectbuilds (now : datetime) (st st' : Store)
    (build_pk ret : nat) (build : Build) :
  get_build st build_pk = Some build ->
  process_build_dependencies now st build_pk = Some (st', ret) ->
  forall pb', In pb' (projectbuilds st') ->
    (exists pb,
       In pb (projectbuilds st)
       /\ pb' = (if existsb (fun k => k =? pb_pk pb) (touched st build)
                 then finalize (bind_pending_rows (handle_new_build build st) build)
                               now pb
                 else pb)
       /\ (settled st pb -> settled st' pb'))
    \/ (settled st' pb' /\ fresh_projectbuild now st pb').
Proof.
  intros Hb Hrun pb' Hin.
  destruct (process_build_dependencies_shape now st st' build_pk ret Hrun)
    as (build' & Hb' & _ & Hshape).
  rewrite Hb in Hb'. injection Hb' as <-.
  destruct Hshape as [[Hnone ->]|(_ & Hagg & Hext)].
  - left. exists pb'. split; [exact Hin|]. split; [|auto].
    replace (touched st build) with (@nil nat); [reflexivity|].
    destruct (touched st build) as [|k l] eqn:Et; [reflexivity|].
    exfalso. apply (touched_dependency_set st build k); [|exact Hnone].
    rewrite Et. now left.
  - destruct (projectbuilds_after_check now st build) as (Hpbs & _).
    cbv zeta in Hpbs.
    set (st3 := bind_pending_rows (handle_new_build build st) build) in *.
    set (st4 := finalization_check now st3 (touched st build)) in *.
    assert (Hfrom4 : In pb' (projectbuilds st4)
                     \/ (settled st' pb' /\ fresh_projectbuild now st4 pb')).
    { unfold auto_aggregate in Hagg. destruct (String.eqb _ _).
      - now apply (create_projectbuilds_settled now build _ st4 st' Hagg).
      - injection Hagg as <-. now left. }
    destruct Hfrom4 as [Hin4|[Hs Hf]].
    + left. pose proof Hin4 as Hin4'. rewrite Hpbs in Hin4'.
      apply in_map_iff in Hin4'. destruct Hin4' as (pb & <- & Hpb).
      exists pb. split; [exact Hpb|]. split; [reflexivity|].
      intros Hs. apply (settled_extends now build st4 st' _ Hext Hin4).
      now apply check_settled.
    + right. split; [exact Hs|].
      destruct Hf as (Hpk & Hstate). split; [|exact Hstate].
      assert (Hle : next_pk pb_pk (projectbuilds st)
                    = next_pk pb_pk (projectbuilds st4)).
      { rewrite Hpbs. symmetry. apply next_pk_map. intros x.
        destruct (existsb _ _); [apply finalize_pk|reflexivity]. }
      lia.
Qed.



(** ** ended_at and the one-way transition *)

(** One reconciliation either leaves a ProjectBuild as it is or finishes
    it, which it only does to an INCOMPLETE one. *)
Lemma process_step_projectbuild (now : datetime) (st st' : Store)
    (build_pk ret pk : nat) (pb : ProjectBuild) :
  process_build_dependencies now st build_pk = Some (st', ret) ->
  get_projectbuild st pk = Some pb ->
  exists pb',
    get_projectbuild st' pk = Some pb'
    /\ (pb' = pb
        \/ (pb_status pb = INCOMPLETE
            /\ pb_ended_at pb' = Some now
            /\ pb_phase pb' = FINALIZED
            /\ (pb_status pb' = SUCCESS \/ pb_status pb' = FAILURE))).
Proof.
  intros Hrun Hpb.
  destruct (process_build_dependencies_shape now st st' build_pk ret Hrun)
    as (build & Hb & _ & [[_ ->]|(_ & _ & Hext)]).
  { exists pb. auto. }
  destruct (projectbuilds_after_check now st build) as (Hpbs & _).
  cbv zeta in Hpbs.
  set (st3 := bind_pending_rows (handle_new_build build st) build) in *.
  set (g := fun pb => if existsb (fun k => k =? pb_pk pb) (touched st build)
                      then finalize st3 now pb else pb) in *.
  exists (g pb). split.
  - apply (get_projectbuild_extends now build _ st' pk (g pb) Hext).
    unfold get_projectbuild. rewrite Hpbs, find_projectbuild_map.
    + unfold get_projectbuild in Hpb. now rewrite Hpb.
    + intros x. unfold g. destruct (existsb _ _); [apply finalize_pk|reflexivity].
  - unfold g. destruct (existsb _ _); [|now left].
    destruct (finalize_cases st3 now pb)
      as [[Hsame _]|(Hinc & _ & Hend & Hphase & Hstatus)]; [now left|].
    right. repeat split; auto. rewrite Hstatus.
    destruct (forallb _ _); auto.
Qed.

Lemma fresh_projectbuild_consistent (now : datetime) (st : Store)
    (pb : ProjectBuild) :
  fresh_projectbuild now st pb -> projectbuild_consistent pb.
Proof.
  intros (_ & [(Hs & He & Hp)|(Hs & He & Hp)]).
  - left. repeat split; auto. rewrite Hp. discriminate.
  - right. repeat split; auto. rewrite He. discriminate.
Qed.

Lemma finalize_consistent (st : Store) (now : datetime) (pb : ProjectBuild) :
  projectbuild_consistent pb -> projectbuild_consistent (finalize st now pb).
Proof.
  intros Hc.
  destruct (finalize_cases st now pb)
    as [[-> _]|(_ & _ & Hend & Hphase & Hstatus)]; [exact Hc|].
  right. rewrite Hend, Hphase, Hstatus.
  split; [destruct (forallb _ _); auto|]. split; [discriminate|reflexivity].
Qed.

Lemma process_step_consistent (now : datetime) (st st' : Store)
    (build_pk ret : nat) :
  projectbuilds_consistent st ->
  process_build_dependencies now st build_pk = Some (st', ret) ->
  projectbuilds_consistent st'.
Proof.
  intros Hcons Hrun.
  destruct (process_build_dependencies_shape now st st' build_pk ret Hrun)
    as (build & Hb & _ & _).
  intros pb' Hin.
  destruct (process_build_dependencies_projectbuilds now st st' build_pk ret
              build Hb Hrun pb' Hin) as [(pb & Hpb & -> & _)|[_ Hf]].
  - specialize (Hcons pb Hpb).
    destruct (existsb _ _); [now apply finalize_consistent|exact Hcons].
  - now apply (fresh_projectbuild_consistent now st).
Qed.

Lemma find_In_some {A : Type} (f : A -> bool) (l : list A) (x : A) :
  In x l -> f x = true -> exists y, find f l = Some y.
Proof.
  induction l as [|z l IH]; simpl; [tauto|].
  intros [->|H] Hf.
  - rewrite Hf. eauto.
  - destruct (f z); eauto.
Qed.

(** A ProjectBuild that one reconciliation creates is unfinished, with no end
    time, or finished at the time of the reconciliation. *)
Lemma process_step_created (now : datetime) (st st' : Store)
    (build_pk ret pk : nat) (pb' : ProjectBuild) :
  process_build_dependencies now st build_pk = Some (st', ret) ->
  get_projectbuild st pk = None ->
  get_projectbuild st' pk = Some pb' ->
  (pb_status pb' = INCOMPLETE /\ pb_ended_at pb' = None)
  \/ finished_at now pb'.
Proof.
  intros Hrun Hnone Hget.
  destruct (process_build_dependencies_shape now st st' build_pk ret Hrun)
    as (build & Hb & _ & _).
  destruct (get_projectbuild_In st' pk pb' Hget) as [Hin Hpk].
  destruct (process_build_dependencies_projectbuilds now st st' build_pk ret
              build Hb Hrun pb' Hin) as [(pb & Hpb & E & _)|[_ Hf]].
  - exfalso.
    assert (Hk : pb_pk pb = pk).
    { rewrite <- Hpk, E. destruct (existsb _ _); [now rewrite finalize_pk|reflexivity]. }
    destruct (find_In_some (fun x => pb_pk x =? pk) (projectbuilds st) pb Hpb)
      as [y Hy]; [now apply Nat.eqb_eq|].
    unfold get_projectbuild in Hnone. congruence.
  - destruct Hf as (_ & [(Hs & He & _)|Hfin]); [now left|now right].
Qed.

(** A ProjectBuild followed over a run of reconciliations. *)
Lemma reconcile_all_followed (events : list (datetime * nat)) (st st' : Store)
    (pk : nat) (pb : ProjectBuild) :
  projectbuilds_consistent st ->
  reconcile_all events st = Some st' ->
  get_projectbuild st pk = Some pb ->
  projectbuilds_consistent st'
  /\ exists pb',
       get_projectbuild st' pk = Some pb'
       /\ (pb_ended_at pb <> None -> pb' = pb)
       /\ (pb_status pb <> INCOMPLETE -> pb' = pb)
       /\ (pb_ended_at pb' = None -> pb' = pb /\ pb_status pb' = INCOMPLETE)
       /\ (pb_ended_at pb' <> None ->
           pb_status pb' = SUCCESS \/ pb_status pb' = FAILURE)
       /\ (pb_ended_at pb = None ->
           forall t, pb_ended_at pb' = Some t ->
                     exists build_pk, In (t, build_pk) events).
Proof.
  revert st pb.
  induction events as [|[now build_pk] events IH]; intros st pb Hcons Hrun Hpb.
  - simpl in Hrun. injection Hrun as <-. split; [exact Hcons|].
    pose proof (get_projectbuild_In st pk pb Hpb) as [Hin _].
    specialize (Hcons pb Hin).
    exists pb. split; [exact Hpb|]. repeat split; auto.
    + destruct Hcons as [(Hs & _)|(_ & He & _)]; [exact Hs|contradiction].
    + intros He. destruct Hcons as [(_ & He' & _)|(Hs & _)];
        [contradiction|exact Hs].
    + intros He t Ht. congruence.
  - simpl in Hrun.
    destruct (process_build_dependencies now st build_pk) as [[st1 ret]|] eqn:E;
      [|discriminate].
    pose proof (process_step_consistent now st st1 build_pk ret Hcons E) as Hcons1.
    destruct (process_step_projectbuild now st st1 build_pk ret pk pb E Hpb)
      as (pb1 & Hpb1 & Hstep).
    destruct (IH st1 pb1 Hcons1 Hrun Hpb1)
      as (Hcons' & pb' & Hpb' & Hset & Hway & Hnull & Hdone & Htime).
    split; [exact Hcons'|].
    pose proof (get_projectbuild_In st pk pb Hpb) as [Hin _].
    pose proof (Hcons pb Hin) as Hc.
    exists pb'. split; [exact Hpb'|].
    destruct Hstep as [->|(Hinc & Hend1 & Hphase1 & Hstatus1)].
    + repeat split; auto.
      * now apply Hnull.
      * now apply Hnull.
      * intros He t Ht. destruct (Htime He t Ht) as [k Hk].
        exists k. now right.
    + assert (Hnone : pb_ended_at pb = None).
      { destruct Hc as [(_ & He & _)|([Hs|Hs] & _)]; [exact He| |];
          rewrite Hinc in Hs; discriminate. }
      assert (Hfix : pb' = pb1) by (apply Hset; rewrite Hend1; discriminate).
      subst pb'. split; [|split; [|split; [|split]]].
      * intros H. contradiction.
      * intros H. contradiction.
      * intros H. rewrite Hend1 in H. discriminate.
      * intros _. exact Hstatus1.
      * intros _ t Ht. rewrite Hend1 in Ht. injection Ht as <-.
        exists build_pk. now left.
Qed.

(** A ProjectBuild created during a run of reconciliations. *)
Lemma reconcile_all_created (events : list (datetime * nat)) (st st' : Store)
    (pk : nat) (pb' : ProjectBuild) :
  projectbuilds_consistent st ->
  reconcile_all events st = Some st' ->
  get_projectbuild st pk = None ->
  get_projectbuild st' pk = Some pb' ->
  (pb_ended_at pb' = None /\ pb_status pb' = INCOMPLETE)
  \/ (exists t build_pk,
        In (t, build_pk) events /\ pb_ended_at pb' = Some t
        /\ (pb_status pb' = SUCCESS \/ pb_status pb' = FAILURE)).
Proof.
  revert st.
  induction events as [|[now build_pk] events IH]; intros st Hcons Hrun Hnone Hget.
  - simpl in Hrun. injection Hrun as <-. congruence.
  - simpl in Hrun.
    destruct (process_build_dependencies now st build_pk) as [[st1 ret]|] eqn:E;
      [|discriminate].
    pose proof (process_step_consistent now st st1 build_pk ret Hcons E) as Hcons1.
    destruct (get_projectbuild st1 pk) as [pb1|] eqn:Hpb1.
    + (* created by this reconciliation *)
      destruct (reconcile_all_followed events st1 st' pk pb1 Hcons1 Hrun Hpb1)
        as (_ & pb'' & Hget'' & Hset & _ & Hnull & Hdone & Htime).
      rewrite Hget in Hget''. injection Hget'' as <-.
      destruct (process_step_created now st st1 build_pk ret pk pb1 E Hnone Hpb1)
        as [(Hs1 & He1)|(Hs1 & He1 & _)].
      * destruct (pb_ended_at pb') as [t|] eqn:Et.
        -- right. destruct (Htime He1 t eq_refl) as [k Hk].
           exists t, k. split; [now right|]. split; [reflexivity|].
           apply Hdone. discriminate.
        -- left. split; [reflexivity|]. now apply Hnull.
      * assert (Hfix : pb' = pb1) by (apply Hset; rewrite He1; discriminate).
        subst pb'. right. exists now, build_pk.
        split; [now left|]. auto.
    + destruct (IH st1 Hcons1 Hrun Hpb1 Hget) as [H|(t & k & Hin & H)];
        [now left|].
      right. exists t, k. split; [now right|exact H].
Qed.

(** C7.  A ProjectBuild is created with [ended_at] NULL and status
    INCOMPLETE.  Over any run of reconciliations starting from a store whose
    ProjectBuilds satisfy the invariant: the invariant is kept; a ProjectBuild
    whose [ended_at] is still NULL at the end is unchanged and INCOMPLETE; once
    [ended_at] is set, or the status has left INCOMPLETE, no later
    reconciliation changes the ProjectBuild; an [ended_at] set during the
    run is the time of one reconciliation of the run, with the status then
    SUCCESS or FAILURE; and a ProjectBuild created during the run ends it
    either INCOMPLETE with [ended_at] NULL or finished with [ended_at] the
    time of one reconciliation of the run. *)
Theorem ended_at_set_once (events : list (datetime * nat)) (st st' : Store)
    (pk : nat) (pb : ProjectBuild) :
  projectbuilds_consistent st ->
  reconcile_all events st = Some st' ->
  get_projectbuild st pk = Some pb ->
  (forall k project user now key,
     pb_ended_at (new_projectbuild k project user now key) = None
     /\ pb_status (new_projectbuild k project user now key) = INCOMPLETE)
  /\ projectbuilds_consistent st'
  /\ (exists pb',
        get_projectbuild st' pk = Some pb'
        /\ (pb_ended_at pb <> None -> pb' = pb)
        /\ (pb_status pb <> INCOMPLETE -> pb' = pb)
        /\ (pb_ended_at pb' = None -> pb' = pb /\ pb_status pb' = INCOMPLETE)
        /\ (pb_ended_at pb' <> None ->
            pb_status pb' = SUCCESS \/ pb_status pb' = FAILURE)
        /\ (pb_ended_at pb = None ->
            forall t, pb_ended_at pb' = Some t ->
                      exists build_pk, In (t, build_pk) events))
  /\ (forall k created,
        get_projectbuild st k = None ->
        get_projectbuild st' k = Some created ->
        (pb_ended_at created = None /\ pb_status created = INCOMPLETE)
        \/ (exists t build_pk,
              In (t, build_pk) events /\ pb_ended_at created = Some t
              /\ (pb_status created = SUCCESS \/ pb_status created = FAILURE))).
Proof.
  intros Hcons Hrun Hpb. split; [intros; split; reflexivity|].
  destruct (reconcile_all_followed events st st' pk pb Hcons Hrun Hpb)
    as (Hcons' & Hfollowed).
  split; [exact Hcons'|]. split; [exact Hfollowed|].
  intros k created Hnone Hget.
  now apply (reconcile_all_created events st st' k created Hcons Hrun).
Qed.

(** Over the first two reconciliations of the scenario [ended_at] of the
    requested ProjectBuild goes from NULL to the time of the second one, and
    the third reconciliation keeps it; that third reconciliation creates a
    ProjectBuild, finished at its own time. *)
Lemma ended_at_set_once_witness :
  exists st' pb' created,
    reconcile_all [(Fixtures.second_request, 1); (Fixtures.third_request, 2);
                   (Fixtures.fourth_request, 2)]
                  Fixtures.requested_store = Some st'
    /\ get_projectbuild st' 1 = Some pb'
    /\ pb_ended_at pb' = Some Fixtures.third_request
    /\ (pb_status pb' = SUCCESS \/ pb_status pb' = FAILURE)
    /\ get_projectbuild st' 2 = Some created
    /\ pb_ended_at created = Some Fixtures.fourth_request
    /\ (pb_status created = SUCCESS \/ pb_status created = FAILURE).
Proof.
  assert (Hcons : projectbuilds_consistent Fixtures.requested_store).
  { intros pb [<-|[]]. left. repeat split. discriminate. }
  destruct (reconcile_all
              [(Fixtures.second_request, 1); (Fixtures.third_request, 2);
               (Fixtures.fourth_request, 2)] Fixtures.requested_store)
    as [st'|] eqn:Hrun; [|vm_compute in Hrun; discriminate].
  destruct (ended_at_set_once _ _ st' 1 Fixtures.incomplete_projectbuild
              Hcons Hrun eq_refl)
    as (_ & _ & (pb' & Hpb' & _ & _ & _ & Hdone & _) & Hcreated).
  destruct (get_projectbuild st' 2) as [created|] eqn:Hget;
    [|vm_compute in Hrun; injection Hrun as <-; vm_compute in Hget; discriminate].
  exists st', pb', created. split; [reflexivity|]. split; [exact Hpb'|].
  assert (He : pb_ended_at pb' = Some Fixtures.third_request).
  { vm_compute in Hrun. injection Hrun as <-.
    vm_compute in Hpb'. injection Hpb' as <-. reflexivity. }
  split; [exact He|]. split; [apply Hdone; rewrite He; discriminate|].
  split; [exact Hget|].
  assert (Hc : pb_ended_at created = Some Fixtures.fourth_request).
  { vm_compute in Hrun. injection Hrun as <-.
    vm_compute in Hget. injection Hget as <-. reflexivity. }
  split; [exact Hc|].
  destruct (Hcreated 2 created eq_refl Hget) as [(Hn & _)|(t & k & _ & _ & Hs)];
    [congruence|exact Hs].
Defined.

(** ** Reconciling the same build again *)



Lemma tracks_same (st st' : Store) (job : nat) (r : ProjectDependency) :
  dependencies st' = dependencies st -> tracks st' job r = tracks st job r.
Proof.
  intros H. unfold tracks, dependency_set. now rewrite H.
Qed.






Lemma extends_project_dependencies (now : datetime) (build : Build)
    (st st' : Store) :
  extends now build st st' -> project_dependencies st' = project_dependencies st.
Proof. intros (_ & _ & _ & _ & H & _). exact H. Qed.




(** ** Reconciliation and the current builds *)

(** Reconciling a build leaves the ProjectDependency table as
    [handle_new_build] makes it: steps 3 to 5 do not write it. *)
Lemma process_build_dependencies_current_builds (now : datetime)
    (st st' : Store) (build_pk ret : nat) (build : Build) :
  get_build st build_pk = Some build ->
  process_build_dependencies now st build_pk = Some (st', ret) ->
  project_dependencies st' = project_dependencies (handle_new_build build st).
Proof.
  intros Hb Hrun.
  destruct (process_build_dependencies_shape now st st' build_pk ret Hrun)
    as (build' & Hb' & _ & Hshape).
  rewrite Hb in Hb'. injection Hb' as <-.
  destruct Hshape as [[Hnone ->]|(_ & _ & Hext)].
  - unfold handle_new_build. now rewrite Hnone.
  - destruct (projectbuilds_after_check now st build) as (_ & _ & _ & _ & _ & _ & _ & H).
    cbv zeta in H. rewrite <- H.
    now apply (extends_project_dependencies now build).
Qed.

(** ** The scenarios of the test suites, replayed *)

(** test_archive_artifact_from_finalized_dependency_build: for the
    build-scoped entry the transport sees START, the fetch with the stored
    credentials, the promotion and END. *)
Example archive_build_scoped_log :
  transport_log
    (fst (archive_artifact_from_jenkins Fixtures.never_fails Fixtures.size_21
            Fixtures.second_request 1 (empty_world Fixtures.partial_store)))
  = [START;
     ArchiveUrl "http://jenkins/1" "1/1/testing/testing1.txt" "root" "testing";
     LinkToCurrent "1/1/testing/testing1.txt";
     END].
Proof. vm_compute. reflexivity. Qed.

(** test_archive_artifact_from_jenkins: 21 bytes are recorded on the entry. *)
Example archive_records_size :
  option_map aa_archived_size
    (get_archive_artifact
       (db (fst (archive_artifact_from_jenkins Fixtures.never_fails
                   Fixtures.size_21 Fixtures.second_request 1
                   (empty_world Fixtures.partial_store)))) 1)
  = Some (Some 21).
Proof. vm_compute. reflexivity. Qed.

(** test_archive_artifact_from_non_finalized_projectbuild (archiving): the
    project-scoped entry is fetched, not promoted. *)
Example archive_project_scoped_log :
  transport_log
    (fst (archive_artifact_from_jenkins Fixtures.never_fails Fixtures.size_21
            Fixtures.second_request 2 (empty_world Fixtures.partial_store)))
  = [START;
     ArchiveUrl "http://jenkins/1" "project/1/testing/testing1.txt" "root" "testing";
     END].
Proof. vm_compute. reflexivity. Qed.

(** test_archive_artifact_from_non_finalized_projectbuild (linking): the
    entries are linked, the partially built ProjectBuild is not made current. *)
Example link_project_scoped_log :
  transport_log
    (fst (link_artifact_in_archive Fixtures.never_fails 1 2
            (empty_world Fixtures.partial_store)))
  = [START;
     LinkFilenameToFilename "1/1/testing/testing1.txt"
                            "project/1/testing/testing1.txt";
     END].
Proof. vm_compute. reflexivity. Qed.
(** test_projectbuild_updates_when_build_created: the build of the first
    dependency is bound to its row, the other row stays unbound. *)
Example first_build_binds_one_row :
  map pbd_build (projectbuild_dependencies Fixtures.after_first_build)
  = [Some 1; None].
Proof. vm_compute. reflexivity. Qed.

(** test_project_build_status_when_all_dependencies_have_builds: after the
    FINALIZED builds of both jobs the ProjectBuild is SUCCESS and FINALIZED,
    with an end time, and it is still the only one. *)
Example both_builds_finish_projectbuild :
  map (fun pb => (pb_status pb, pb_phase pb, pb_ended_at pb))
      (projectbuilds Fixtures.after_second_build)
  = [(SUCCESS, FINALIZED, Some Fixtures.third_request)].
Proof. vm_compute. reflexivity. Qed.

(** test_auto_track_dependency_triggers_project_build_creation: one new
    ProjectBuild with two rows, the arrived build on the first and the current
    build of the other dependency on the second. *)
Example autotrack_creates_projectbuild :
  let st' := Fixtures.store_of
               (process_build_dependencies Fixtures.second_request
                  Fixtures.autotrack_store 6) in
  map pb_build_key (projectbuilds st') = ["20140312.0"]
  /\ map (fun r => (pbd_dependency r, pbd_build r)) (projectbuild_dependencies st')
     = [(1, Some 6); (3, Some 5)].
Proof. vm_compute. split; reflexivity. Qed.

(** test_build_with_several_projectbuild_dependencies: the build is bound in
    the requested ProjectBuild of the first project, and the second project
    gets a ProjectBuild with the build bound; two rows in all. *)
Example several_projects_two_rows :
  let st' := Fixtures.store_of
               (process_build_dependencies Fixtures.second_request
                  Fixtures.several_projects_store 1) in
  map pb_project (projectbuilds st') = [1; 2]
  /\ map (fun r => (pbd_projectbuild r, pbd_dependency r, pbd_build r))
         (projectbuild_dependencies st')
     = [(1, 1, Some 1); (2, 1, Some 1)].
Proof. vm_compute. split; reflexivity. Qed.

(** test_link_artifact_in_archive: after the reconciliation of the build,
    [add_build] gives the artifact two entries, and linking the first to the
    second makes the second, project-scoped, entry current. *)
Example autotrack_entry_is_promoted :
  let build := mkBuild 1 1 "" 1 FINALIZED "SUCCESS" in
  let st1 := Fixtures.store_of
               (process_build_dependencies Fixtures.second_request
                  Fixtures.single_dependency_store 1) in
  let st2 := fst (add_build Fixtures.flat_path Fixtures.local_archive build st1) in
  map aa_projectbuild_dependency (archive_artifacts st2) = [None; Some 1]
  /\ transport_log
       (fst (link_artifact_in_archive Fixtures.never_fails 1 2 (empty_world st2)))
     = [START;
        LinkFilenameToFilename "1/1/testing/testing1.txt"
                               "project/1/testing/testing1.txt";
        LinkToCurrent "project/1/testing/testing1.txt";
        END].
Proof. vm_compute. split; reflexivity. Qed.

(** test_archive_artifact_from_finalized_projectbuild (linking): both builds
    reconciled, [add_build] gives the artifact of the second build two
    entries, and the link makes the project-scoped one current. *)
Example finished_projectbuild_is_promoted :
  let build2 := mkBuild 2 2 "20140312.0" 1 FINALIZED "SUCCESS" in
  let st1 := Fixtures.store_of
               (process_build_dependencies Fixtures.second_request
                  Fixtures.linking_store 1) in
  let st2 := Fixtures.store_of
               (process_build_dependencies Fixtures.third_request st1 2) in
  let st3 := fst (add_build Fixtures.flat_path Fixtures.local_archive build2 st2) in
  map aa_projectbuild_dependency (archive_artifacts st3) = [None; Some 2]
  /\ transport_log
       (fst (link_artifact_in_archive Fixtures.never_fails 1 2 (empty_world st3)))
     = [START;
        LinkFilenameToFilename "2/2/testing/testing.txt"
                               "project/1/testing/testing.txt";
        LinkToCurrent "project/1/testing/testing.txt";
        END].
Proof. vm_compute. split; reflexivity. Qed.

(* ------------------------------------------------------------------ *)
(** * Further properties of the code *)

(** ** Build.translate_build_phase *)

(** X1.  [translate_build_phase] changes one phase only, "FINISHED", which
    becomes FINALIZED; every other phase is returned as it is, and
    translating twice is translating once. *)
Theorem translate_build_phase_idempotent (phase : string) :
  translate_build_phase (translate_build_phase phase)
  = translate_build_phase phase
  /\ ((phase = "FINISHED" /\ translate_build_phase phase = FINALIZED)
      \/ (phase <> "FINISHED" /\ translate_build_phase phase = phase)).
Proof.
  unfold translate_build_phase.
  destruct (String.eqb phase "FINISHED") eqn:E.
  - apply String.eqb_eq in E. split; [reflexivity|]. now left.
  - rewrite E. apply String.eqb_neq in E. split; [reflexivity|]. now right.
Qed.

(** ** handle_new_build: composition and frame *)

(** X2.  With unique row keys, saving a build of a job and then another
    build of the same job leaves the store as saving the second build alone
    does: the last build wins, and saving the same build twice is saving it
    once. *)
Theorem handle_new_build_last_write_wins (st : Store) (first second : Build) :
  NoDup (map pd_pk (project_dependencies st)) ->
  b_job first = b_job second ->
  handle_new_build second (handle_new_build first st)
  = handle_new_build second st
  /\ handle_new_build second (handle_new_build second st)
     = handle_new_build second st.
Proof.
  intros Hnd Hjob.
  assert (H : forall b, b_job b = b_job second ->
            handle_new_build second (handle_new_build b st)
            = handle_new_build second st).
  { intros b Hb.
    rewrite (handle_new_build_table b st Hnd).
    rewrite handle_new_build_table
      by (rewrite project_dependencies_set; now rewrite map_pk_with_current_build).
    rewrite (handle_new_build_table second st Hnd).
    rewrite set_project_dependencies_twice, project_dependencies_set.
    f_equal. rewrite map_map. apply map_ext. intros r.
    rewrite (tracks_same st (set_project_dependencies st _)) by reflexivity.
    rewrite Hb.
    destruct (tracks st (b_job second) r) eqn:E.
    - unfold tracks in *. simpl. now rewrite E.
    - now rewrite E. }
  split; [now apply H|now apply H].
Qed.

Lemma handle_new_build_last_write_wins_witness :
  handle_new_build Fixtures.build3
    (handle_new_build Fixtures.build2 Fixtures.tracking_store_with_artifacts)
  = handle_new_build Fixtures.build3 Fixtures.tracking_store_with_artifacts.
Proof.
  assert (Hnd : NoDup (map pd_pk (project_dependencies
                                    Fixtures.tracking_store_with_artifacts))).
  { simpl. repeat constructor; simpl; intuition discriminate. }
  destruct (handle_new_build_last_write_wins
              Fixtures.tracking_store_with_artifacts
              Fixtures.build2 Fixtures.build3 Hnd eq_refl) as [H _].
  exact H.
Defined.

(** X3.  With unique row keys, [handle_new_build] writes nothing but the
    [current_build] column of the ProjectDependency table: the rows keep their
    key, dependency, project and [auto_track] flag, in the same order; a row
    either is unchanged or now points at the saved build; every other table
    is untouched; and when no dependency is bound to the build's job the
    store is unchanged. *)
Theorem handle_new_build_writes_current_build_only (st : Store)
    (instance : Build) :
  NoDup (map pd_pk (project_dependencies st)) ->
  let st' := handle_new_build instance st in
  map (fun r => (pd_pk r, pd_dependency r, pd_project r, pd_auto_track r))
      (project_dependencies st')
  = map (fun r => (pd_pk r, pd_dependency r, pd_project r, pd_auto_track r))
        (project_dependencies st)
  /\ (forall r, In r (project_dependencies st') ->
        In r (project_dependencies st)
        \/ pd_current_build r = Some (b_pk instance))
  /\ builds st' = builds st /\ artifacts st' = artifacts st
  /\ dependencies st' = dependencies st /\ projects st' = projects st
  /\ projectbuilds st' = projectbuilds st
  /\ projectbuild_dependencies st' = projectbuild_dependencies st
  /\ archives st' = archives st /\ archive_artifacts st' = archive_artifacts st
  /\ (dependency_set st (b_job instance) = [] -> st' = st).
Proof.
  intros Hnd st'. unfold st'.
  rewrite (handle_new_build_table instance st Hnd).
  rewrite project_dependencies_set.
  split; [|split].
  - rewrite map_map. apply map_ext. intros r.
    now destruct (tracks st (b_job instance) r).
  - intros r Hr. apply in_map_iff in Hr. destruct Hr as (r0 & <- & Hr0).
    destruct (tracks st (b_job instance) r0); [now right|now left].
  - repeat split.
    intros Hnone.
    transitivity (set_project_dependencies st (project_dependencies st));
      [|apply set_project_dependencies_same].
    f_equal.
    transitivity (map (fun r => r) (project_dependencies st)); [|apply map_id].
    apply map_ext. intros r. unfold tracks. rewrite Hnone. simpl.
    now rewrite andb_false_r.
Qed.

Lemma handle_new_build_writes_current_build_only_witness :
  map pd_auto_track
      (project_dependencies
         (handle_new_build Fixtures.build2 Fixtures.tracking_store))
  = [true; false]
  /\ builds (handle_new_build Fixtures.build2 Fixtures.tracking_store)
     = builds Fixtures.tracking_store.
Proof.
  assert (Hnd : NoDup (map pd_pk (project_dependencies Fixtures.tracking_store))).
  { simpl. repeat constructor; simpl; intuition discriminate. }
  destruct (handle_new_build_writes_current_build_only Fixtures.tracking_store
              Fixtures.build2 Hnd) as (Hcols & _ & Hb & _).
  split; [|exact Hb].
  apply (f_equal (map (fun c => snd c))) in Hcols.
  rewrite !map_map in Hcols. exact Hcols.
Defined.

(** ** Project.get_current_artifacts *)

Lemma Project_get_current_artifacts_In (st : Store) (p : Project) (a : Artifact) :
  In a (Project_get_current_artifacts st p)
  <-> In a (artifacts st)
      /\ exists pd, In pd (project_dependencies st)
                    /\ pd_project pd = p_pk p
                    /\ pd_current_build pd = Some (a_build a).
Proof.
  unfold Project_get_current_artifacts. rewrite filter_In, existsb_exists.
  split.
  - intros (Ha & cb & Hcb & Heq). split; [exact Ha|].
    apply in_map_iff in Hcb. destruct Hcb as (pd & <- & Hpd).
    apply filter_In in Hpd. destruct Hpd as [Hpd Hp].
    exists pd. rewrite Nat.eqb_eq in Hp. repeat split; auto.
    destruct (pd_current_build pd) as [k|]; [|discriminate].
    simpl in Heq. apply Nat.eqb_eq in Heq. now subst.
  - intros (Ha & pd & Hpd & Hp & Hcb). split; [exact Ha|].
    exists (pd_current_build pd). split.
    + apply in_map. apply filter_In. split; [exact Hpd|]. now apply Nat.eqb_eq.
    + rewrite Hcb. simpl. apply Nat.eqb_refl.
Qed.

(** X4.  Once a build of a job is saved, every artifact of that build is
    among the current artifacts of each project that auto-tracks a
    dependency bound to the job (row keys being unique). *)
Theorem tracking_project_gets_new_artifacts (st : Store) (instance : Build)
    (d : Dependency) (pd : ProjectDependency) (p : Project) (a : Artifact) :
  NoDup (map pd_pk (project_dependencies st)) ->
  In d (dependencies st) -> d_job d = Some (b_job instance) ->
  In pd (project_dependencies st) ->
  pd_dependency pd = d_pk d -> pd_project pd = p_pk p ->
  pd_auto_track pd = true ->
  In a (artifacts st) -> a_build a = b_pk instance ->
  In a (Project_get_current_artifacts (handle_new_build instance st) p).
Proof.
  intros Hnd Hd Hjob Hpd Hdep Hp Hauto Ha Hb.
  apply Project_get_current_artifacts_In.
  rewrite (handle_new_build_table instance st Hnd). split; [exact Ha|].
  exists (with_current_build pd (Some (b_pk instance))).
  rewrite project_dependencies_set. split; [|split].
  - apply in_map_iff. exists pd. split; [|exact Hpd].
    replace (tracks st (b_job instance) pd) with true; [reflexivity|].
    symmetry. unfold tracks. rewrite Hauto. simpl.
    apply existsb_exists. exists d. split.
    + unfold dependency_set. apply filter_In. split; [exact Hd|].
      rewrite Hjob. simpl. apply Nat.eqb_refl.
    + rewrite Hdep. apply Nat.eqb_refl.
  - exact Hp.
  - simpl. now rewrite Hb.
Qed.

Lemma tracking_project_gets_new_artifacts_witness :
  In (mkArtifact 2 2 "two.txt" "http://jenkins/two")
     (Project_get_current_artifacts
        (handle_new_build Fixtures.build2 Fixtures.tracking_store_with_artifacts)
        (mkProject 1 "tracking")).
Proof.
  apply (tracking_project_gets_new_artifacts
           Fixtures.tracking_store_with_artifacts Fixtures.build2
           Fixtures.dep1 Fixtures.tracked_pd (mkProject 1 "tracking")).
  - simpl. repeat constructor; simpl; intuition discriminate.
  - simpl. auto.
  - reflexivity.
  - simpl. auto.
  - reflexivity.
  - reflexivity.
  - reflexivity.
  - simpl. auto.
  - reflexivity.
Defined.

(** X5.  A project none of whose dependencies is auto-tracked keeps its
    current artifacts whatever build is saved (row keys being unique). *)
Theorem pinned_project_keeps_artifacts (st : Store) (instance : Build)
    (p : Project) :
  NoDup (map pd_pk (project_dependencies st)) ->
  (forall pd, In pd (project_dependencies st) -> pd_project pd = p_pk p ->
              pd_auto_track pd = false) ->
  Project_get_current_artifacts (handle_new_build instance st) p
  = Project_get_current_artifacts st p.
Proof.
  intros Hnd Hpinned. unfold Project_get_current_artifacts.
  rewrite (handle_new_build_table instance st Hnd).
  rewrite project_dependencies_set.
  replace (artifacts (set_project_dependencies st _)) with (artifacts st)
    by reflexivity.
  assert (Hrows :
    filter (fun pd => pd_project pd =? p_pk p)
      (map (fun r => if tracks st (b_job instance) r
                     then with_current_build r (Some (b_pk instance)) else r)
           (project_dependencies st))
    = filter (fun pd => pd_project pd =? p_pk p) (project_dependencies st)).
  { induction (project_dependencies st) as [|r T IH]; [reflexivity|].
    simpl.
    assert (Hproj : pd_project
                      (if tracks st (b_job instance) r
                       then with_current_build r (Some (b_pk instance)) else r)
                    = pd_project r)
      by now destruct (tracks st (b_job instance) r).
    rewrite Hproj.
    destruct (pd_project r =? p_pk p) eqn:E.
    - apply Nat.eqb_eq in E.
      unfold tracks at 1. rewrite (Hpinned r (or_introl eq_refl) E). simpl.
      f_equal. apply IH.
      + now inversion Hnd.
      + intros pd Hpd. apply Hpinned. now right.
    - apply IH.
      + now inversion Hnd.
      + intros pd Hpd. apply Hpinned. now right. }
  now rewrite Hrows.
Qed.

Lemma pinned_project_keeps_artifacts_witness :
  Project_get_current_artifacts
    (handle_new_build Fixtures.build2 Fixtures.tracking_store_with_artifacts)
    (mkProject 2 "pinned")
  = [mkArtifact 1 1 "one.txt" "http://jenkins/one"].
Proof.
  rewrite (pinned_project_keeps_artifacts
             Fixtures.tracking_store_with_artifacts Fixtures.build2
             (mkProject 2 "pinned")).
  - reflexivity.
  - simpl. repeat constructor; simpl; intuition discriminate.
  - intros pd [<-|[<-|[]]]; simpl; [discriminate|reflexivity].
Defined.

(** ** generate_projectbuild_id and ProjectBuild.save *)

Ltac compare_fields :=
  repeat match goal with
         | |- context [Nat.compare ?a ?b] =>
             destruct (Nat.compare_spec a b); simpl; subst
         | H : context [Nat.compare ?a ?b] |- _ =>
             destruct (Nat.compare_spec a b); simpl in H; subst
         end.

(** The window of the filter lies within the calendar day of [now]. *)
Lemma window_same_day (ra now : datetime) :
  dt_gtb ra (replace_hms now 0 0 0) = true ->
  dt_leb ra (replace_hms now 23 59 59) = true ->
  same_day ra now = true.
Proof.
  unfold dt_gtb, dt_leb, dt_compare, replace_hms, same_day, lex. simpl.
  destruct (Nat.compare_spec (year ra) (year now)); try discriminate.
  destruct (Nat.compare_spec (month ra) (month now)); try discriminate.
  destruct (Nat.compare_spec (day ra) (day now)); try discriminate.
  intros _ _. now rewrite !(proj2 (Nat.eqb_eq _ _)) by assumption.
Qed.

(** The count of the code is the day's count when the day's builds lie in
    the window. *)
Lemma window_count_is_day_count (st : Store) (project : nat) (today : datetime) :
  (forall pb, In pb (projectbuilds st) -> pb_project pb = project ->
     same_day (pb_requested_at pb) today = true ->
     dt_gtb (pb_requested_at pb) (replace_hms today 0 0 0) = true
     /\ dt_leb (pb_requested_at pb) (replace_hms today 23 59 59) = true) ->
  generate_projectbuild_id st project today
  = strftime_Ymd today ("." ++ dec (day_count st project today)).
Proof.
  intros Hwin.
  assert (Hfilter :
    filter (fun pb => dt_gtb (pb_requested_at pb) (replace_hms today 0 0 0)
                      && dt_leb (pb_requested_at pb) (replace_hms today 23 59 59)
                      && (pb_project pb =? project)) (projectbuilds st)
    = filter (fun pb => same_day (pb_requested_at pb) today
                        && (pb_project pb =? project)) (projectbuilds st)).
  { apply filter_ext_in. intros pb Hpb.
    destruct (pb_project pb =? project) eqn:Ep; [|now rewrite !andb_false_r].
    rewrite !andb_true_r. apply Nat.eqb_eq in Ep.
    destruct (same_day (pb_requested_at pb) today) eqn:Ed.
    - destruct (Hwin pb Hpb Ep Ed) as [-> ->]. reflexivity.
    - destruct (dt_gtb _ _) eqn:Eg; [|reflexivity].
      destruct (dt_leb _ _) eqn:El; [|reflexivity].
      rewrite (window_same_day _ _ Eg El) in Ed. discriminate. }
  unfold generate_projectbuild_id, day_count. now rewrite Hfilter.
Qed.

(** X6.  The key is the date of [now], a dot and the number of the project's
    builds requested on that calendar day whenever each of those builds lies
    in the window the code filters on: later than midnight plus [now]'s
    microseconds, and not later than 23:59:59 plus [now]'s microseconds. *)
Theorem generate_projectbuild_id_day_count (st : Store) (project : nat)
    (today : datetime) :
  (forall pb, In pb (projectbuilds st) -> pb_project pb = project ->
     same_day (pb_requested_at pb) today = true ->
     dt_gtb (pb_requested_at pb) (replace_hms today 0 0 0) = true
     /\ dt_leb (pb_requested_at pb) (replace_hms today 23 59 59) = true) ->
  generate_projectbuild_id st project today
  = strftime_Ymd today ("." ++ dec (day_count st project today))
  /\ generate_projectbuild_id st project today
     = GenerateKey_spec st project today.
Proof.
  intros Hwin.
  pose proof (window_count_is_day_count st project today Hwin) as H.
  split; [exact H|]. rewrite H. reflexivity.
Qed.

(** At noon, with the clock's microseconds at zero, both builds of the day
    are counted. *)
Lemma generate_projectbuild_id_day_count_witness :
  generate_projectbuild_id Fixtures.two_requests_store 1 Fixtures.fourth_request
  = Some "20140312.2".
Proof.
  destruct (generate_projectbuild_id_day_count Fixtures.two_requests_store 1
              Fixtures.fourth_request) as [H _].
  - intros pb Hpb _ _. vm_compute in Hpb.
    destruct Hpb as [<-|[<-|[]]]; vm_compute; split; reflexivity.
  - rewrite H. vm_compute. reflexivity.
Defined.

Lemma filter_length_le {A : Type} (f g : A -> bool) (l : list A) :
  (forall x, In x l -> f x = true -> g x = true) ->
  List.length (filter f l) <= List.length (filter g l).
Proof.
  induction l as [|x l IH]; intros H; simpl; [lia|].
  assert (IH' : List.length (filter f l) <= List.length (filter g l)).
  { apply IH. intros y Hy. apply H. now right. }
  destruct (f x) eqn:Ef.
  - rewrite (H x (or_introl eq_refl) Ef). simpl. lia.
  - destruct (g x); simpl; lia.
Qed.

(** X7.  The number the code puts after the dot never exceeds the number of
    the project's builds requested on the calendar day of [now]: the code can
    hand out a key a second time, it cannot skip one. *)
Theorem generate_projectbuild_id_never_ahead (st : Store) (project : nat)
    (today : datetime) :
  exists n,
    generate_projectbuild_id st project today
    = strftime_Ymd today ("." ++ dec n)
    /\ n <= day_count st project today.
Proof.
  unfold generate_projectbuild_id, day_count.
  eexists. split; [reflexivity|].
  apply filter_length_le. intros pb _ H.
  apply andb_prop in H. destruct H as [H Hp].
  apply andb_prop in H. destruct H as [Hg Hl].
  now rewrite (window_same_day _ _ Hg Hl), Hp.
Qed.

Lemma same_day_iff (a b : datetime) :
  same_day a b = true <-> year a = year b /\ month a = month b /\ day a = day b.
Proof.
  unfold same_day. rewrite !andb_true_iff, !Nat.eqb_eq. tauto.
Qed.

(** A build of the day, requested after the first second and not after
    [now], lies in the window. *)
Lemma in_window (ra now : datetime) :
  same_day ra now = true -> after_first_second ra = true ->
  dt_leb ra now = true -> valid_clock now ->
  dt_gtb ra (replace_hms now 0 0 0) = true
  /\ dt_leb ra (replace_hms now 23 59 59) = true.
Proof.
  intros Hd Ha Hle (Hh & Hm & Hs).
  apply same_day_iff in Hd. destruct Hd as (Hy & Hmo & Hda).
  assert (Hnz : hour ra <> 0 \/ minute ra <> 0 \/ second ra <> 0).
  { unfold after_first_second in Ha. apply negb_true_iff in Ha.
    destruct (hour ra); [|left; discriminate].
    destruct (minute ra); [|right; left; discriminate].
    destruct (second ra); [discriminate|right; right; discriminate]. }
  unfold dt_gtb, dt_leb, dt_compare, replace_hms, lex in *. simpl in *.
  rewrite Hy, Hmo, Hda in *. rewrite !Nat.compare_refl in *.
  destruct (Nat.compare_spec (hour ra) (hour now));
    destruct (Nat.compare_spec (minute ra) (minute now));
    destruct (Nat.compare_spec (second ra) (second now));
    try discriminate;
    destruct (Nat.compare_spec (hour ra) 0);
    destruct (Nat.compare_spec (minute ra) 0);
    destruct (Nat.compare_spec (second ra) 0);
    try lia;
    destruct (Nat.compare_spec (hour ra) 23);
    destruct (Nat.compare_spec (minute ra) 59);
    destruct (Nat.compare_spec (second ra) 59);
    try lia;
    destruct (Nat.compare_spec (microsecond ra) (microsecond now));
    try discriminate; try lia; auto.
Qed.

Lemma dec_inj (n m : nat) : dec n = dec m -> n = m.
Proof.
  unfold dec. intros H.
  apply (f_equal NilEmpty.uint_of_string) in H.
  rewrite !NilEmpty.usu in H. injection H as H.
  now apply DecimalNat.Unsigned.to_uint_inj.
Qed.

Lemma append_inj_r (p a b : string) : (p ++ a = p ++ b)%string -> a = b.
Proof.
  induction p as [|c p IH]; simpl; intros H; [exact H|].
  injection H as H. now apply IH.
Qed.

Lemma strftime_Ymd_same_day (t1 t2 : datetime) (s1 s2 : string) (k1 k2 : string) :
  same_day t1 t2 = true ->
  strftime_Ymd t1 s1 = Some k1 -> strftime_Ymd t2 s2 = Some k2 ->
  k1 = k2 -> s1 = s2.
Proof.
  intros Hd H1 H2 Heq. apply same_day_iff in Hd. destruct Hd as (Hy & Hm & Hda).
  unfold strftime_Ymd in *. rewrite <- Hy, <- Hm, <- Hda in H2.
  destruct (year t1 <? 1900); [discriminate|].
  injection H1 as <-. injection H2 as <-.
  apply append_inj_r in Heq. apply append_inj_r in Heq.
  now apply append_inj_r in Heq.
Qed.

Lemma day_count_same_day (st : Store) (project : nat) (t1 t2 : datetime) :
  same_day t1 t2 = true -> day_count st project t1 = day_count st project t2.
Proof.
  intros Hd. apply same_day_iff in Hd. destruct Hd as (Hy & Hm & Hda).
  unfold day_count, same_day. now rewrite Hy, Hm, Hda.
Qed.

Lemma ProjectBuild_save_new (today now : datetime) (self : ProjectBuild)
    (st st1 : Store) (saved : ProjectBuild) :
  ProjectBuild_save today now None self st = Some (st1, saved) ->
  generate_projectbuild_id st (pb_project self) today = Some (pb_build_key saved)
  /\ pb_project saved = pb_project self
  /\ pb_requested_at saved = now
  /\ projectbuilds st1 = (projectbuilds st ++ [saved])%list.
Proof.
  unfold ProjectBuild_save.
  destruct (generate_projectbuild_id st (pb_project self) today) as [key|];
    [|discriminate].
  intros H. injection H as <- <-. simpl. auto.
Qed.

(** X8.  Two ProjectBuilds of a project saved one after the other on the
    same day get different keys, provided the clock shows valid times and
    none of the project's builds of that day, the first of the two included,
    was requested within the first second after midnight or later than the
    moment a key is generated. *)
Theorem consecutive_saves_get_distinct_keys (st st1 st2 : Store)
    (today1 now1 today2 now2 : datetime) (self1 self2 saved1 saved2 : ProjectBuild) :
  pb_project self2 = pb_project self1 ->
  valid_clock today1 -> valid_clock today2 ->
  same_day today1 today2 = true ->
  same_day now1 today2 = true ->
  after_first_second now1 = true ->
  dt_leb now1 today2 = true ->
  (forall pb, In pb (projectbuilds st) -> pb_project pb = pb_project self1 ->
     same_day (pb_requested_at pb) today1 = true ->
     after_first_second (pb_requested_at pb) = true
     /\ dt_leb (pb_requested_at pb) today1 = true
     /\ dt_leb (pb_requested_at pb) today2 = true) ->
  ProjectBuild_save today1 now1 None self1 st = Some (st1, saved1) ->
  ProjectBuild_save today2 now2 None self2 st1 = Some (st2, saved2) ->
  pb_build_key saved1 <> pb_build_key saved2.
Proof.
  intros Hproj Hv1 Hv2 Hday Hnow1 Hafter1 Hle1 Hold Hsave1 Hsave2.
  destruct (ProjectBuild_save_new _ _ _ _ _ _ Hsave1) as (Hk1 & Hp1 & Hr1 & Hpbs1).
  destruct (ProjectBuild_save_new _ _ _ _ _ _ Hsave2) as (Hk2 & _ & _ & _).
  rewrite Hproj in Hk2.
  set (p := pb_project self1) in *.
  (* the first key *)
  rewrite (window_count_is_day_count st p today1) in Hk1.
  2:{ intros pb Hpb Hp Hd. destruct (Hold pb Hpb Hp Hd) as (Ha & Hl & _).
      now apply in_window. }
  (* the second key *)
  assert (Hd12 : forall t, same_day t today1 = same_day t today2).
  { intros t. apply same_day_iff in Hday. destruct Hday as (Hy & Hm & Hda).
    unfold same_day. now rewrite Hy, Hm, Hda. }
  rewrite (window_count_is_day_count st1 p today2) in Hk2.
  2:{ intros pb Hpb Hp Hd. rewrite Hpbs1 in Hpb. apply in_app_or in Hpb.
      destruct Hpb as [Hpb|[<-|[]]].
      - rewrite <- Hd12 in Hd. destruct (Hold pb Hpb Hp Hd) as (Ha & _ & Hl).
        rewrite Hd12 in Hd. now apply in_window.
      - rewrite Hr1 in *. now apply in_window. }
  assert (Hcount : day_count st1 p today2 = S (day_count st p today1)).
  { rewrite (day_count_same_day st p today1 today2 Hday).
    unfold day_count. rewrite Hpbs1, filter_app, length_app. simpl.
    rewrite Hr1, Hnow1, Hp1. unfold p. rewrite Nat.eqb_refl. simpl. lia. }
  rewrite Hcount in Hk2.
  intros Heq.
  pose proof (strftime_Ymd_same_day today1 today2 _ _ _ _ Hday Hk1 Hk2 Heq) as H.
  injection H as H. apply dec_inj in H. lia.
Qed.

(** Two requests at 10:30 and 11:00 on a day without earlier builds get
    "20140312.0" and "20140312.1". *)
Lemma consecutive_saves_get_distinct_keys_witness :
  exists st1 saved1 st2 saved2,
    ProjectBuild_save Fixtures.second_request Fixtures.second_request None
      Fixtures.incomplete_projectbuild Fixtures.tracking_store = Some (st1, saved1)
    /\ ProjectBuild_save Fixtures.third_request Fixtures.third_request None
         Fixtures.incomplete_projectbuild st1 = Some (st2, saved2)
    /\ pb_build_key saved1 <> pb_build_key saved2.
Proof.
  destruct (ProjectBuild_save Fixtures.second_request Fixtures.second_request
              None Fixtures.incomplete_projectbuild Fixtures.tracking_store)
    as [[st1 saved1]|] eqn:H1; [|vm_compute in H1; discriminate].
  destruct (ProjectBuild_save Fixtures.third_request Fixtures.third_request
              None Fixtures.incomplete_projectbuild st1)
    as [[st2 saved2]|] eqn:H2.
  2:{ vm_compute in H1. injection H1 as <- _. vm_compute in H2. discriminate. }
  exists st1, saved1, st2, saved2. split; [reflexivity|]. split; [exact H2|].
  apply (consecutive_saves_get_distinct_keys Fixtures.tracking_store st1 st2
           Fixtures.second_request Fixtures.second_request
           Fixtures.third_request Fixtures.third_request
           Fixtures.incomplete_projectbuild Fixtures.incomplete_projectbuild
           saved1 saved2); try reflexivity; try exact H1; try exact H2.
  - repeat split; simpl; lia.
  - repeat split; simpl; lia.
  - intros pb [].
Defined.

(** ** DefaultSettings *)

Import JenkinsUtils.



(** ** Build.console_log_summary *)

Lemma count_newlines_append (a b : string) :
  count_newlines (a ++ b) = count_newlines a + count_newlines b.
Proof.
  induction a as [|c a IH]; simpl; [reflexivity|]. rewrite IH. lia.
Qed.

Lemma count_newlines_concat (lines : list string) :
  (forall line, In line lines -> count_newlines line = 0) ->
  count_newlines (String.concat newline lines) = List.length lines - 1.
Proof.
  induction lines as [|x lines IH]; intros H; [reflexivity|].
  destruct lines as [|y lines].
  - simpl. rewrite (H x) by now left. reflexivity.
  - change (String.concat newline (x :: y :: lines))
      with (x ++ newline ++ String.concat newline (y :: lines))%string.
    rewrite !count_newlines_append, IH by (intros l Hl; apply H; now right).
    rewrite (H x) by now left. simpl. lia.
Qed.

Lemma last_n_length {A : Type} (n : nat) (l : list A) :
  List.length (last_n n l) = Nat.min n (List.length l).
Proof.
  unfold last_n. rewrite length_skipn. lia.
Qed.

Lemma last_n_suffix {A : Type} (n : nat) (l : list A) :
  exists skipped, l = (skipped ++ last_n n l)%list.
Proof.
  exists (firstn (List.length l - n) l). unfold last_n.
  now rewrite firstn_skipn.
Qed.

Lemma last_n_all {A : Type} (n : nat) (l : list A) :
  List.length l <= n -> last_n n l = l.
Proof.
  intros H. unfold last_n. replace (List.length l - n) with 0 by lia.
  reflexivity.
Qed.

(** X10.  [console_log_summary] returns a missing or empty log as it is.
    Otherwise the summary is the last lines of the log joined by line feeds:
    all of them when the log has at most 20 lines, the last 20 otherwise; and
    since [splitlines] gives lines without line feeds, the summary holds at
    most 19 line feeds. *)
Theorem console_log_summary_tail (splitlines : string -> list string)
    (log : string) :
  (forall s line, In line (splitlines s) -> count_newlines line = 0) ->
  log <> EmptyString ->
  console_log_summary splitlines None = None
  /\ console_log_summary splitlines (Some EmptyString) = Some EmptyString
  /\ exists skipped kept,
       splitlines log = (skipped ++ kept)%list
       /\ List.length kept = Nat.min 20 (List.length (splitlines log))
       /\ console_log_summary splitlines (Some log)
          = Some (String.concat newline kept)
       /\ count_newlines (String.concat newline kept) <= 19
       /\ (List.length (splitlines log) <= 20 -> kept = splitlines log).
Proof.
  intros Hlines Hlog. split; [reflexivity|]. split; [reflexivity|].
  destruct (last_n_suffix CONSOLE_TAIL_LINES (splitlines log)) as [skipped Hs].
  exists skipped, (last_n CONSOLE_TAIL_LINES (splitlines log)).
  split; [exact Hs|]. split; [apply last_n_length|].
  split; [destruct log; [contradiction|reflexivity]|].
  split.
  - rewrite count_newlines_concat.
    + rewrite last_n_length. unfold CONSOLE_TAIL_LINES. lia.
    + intros line Hl. apply (Hlines log). rewrite Hs.
      apply in_or_app. now right.
  - apply last_n_all.
Qed.

Lemma lf_splitlines_no_newline (s line : string) :
  In line (Fixtures.lf_splitlines s) -> count_newlines line = 0.
Proof.
  revert line. induction s as [|c s IH]; intros line; simpl; [tauto|].
  destruct (Ascii.eqb c "010") eqn:E.
  - intros [<-|H]; [reflexivity|now apply IH].
  - destruct (Fixtures.lf_splitlines s) as [|l ls].
    + intros [<-|[]]. simpl. now rewrite E.
    + intros [<-|H].
      * simpl. rewrite E. apply IH. now left.
      * apply IH. now right.
Qed.

(** A log of three lines is summarised by its three lines, the trailing line
    feed dropped. *)
Lemma console_log_summary_tail_witness :
  console_log_summary Fixtures.lf_splitlines
    (Some (String "a" (String "010" (String "b" (String "010"
             (String "c" (String "010" EmptyString)))))))
  = Some (String "a" (String "010" (String "b" (String "010"
            (String "c" EmptyString))))).
Proof.
  destruct (console_log_summary_tail Fixtures.lf_splitlines
              (String "a" (String "010" (String "b" (String "010"
                 (String "c" (String "010" EmptyString))))))
              lf_splitlines_no_newline)
    as (_ & _ & skipped & kept & _ & _ & Hsum & _ & Hall).
  - discriminate.
  - rewrite Hsum, Hall; [reflexivity|]. simpl. lia.
Defined.

(** ** DependencyDetailView.paginate_builds *)

Import ProjectViews.

Section Pages.

Variable A : Type.
Variable l : list A.

Lemma num_pages_bounds :
  1 <= num_pages A l 5
  /\ (num_pages A l 5 - 1) * 5 < Nat.max 1 (List.length l)
  /\ Nat.max 1 (List.length l) <= num_pages A l 5 * 5.
Proof.
  unfold num_pages, count.
  pose proof (Nat.div_mod_eq (Nat.max 1 (List.length l) + 5 - 1) 5) as H.
  pose proof (Nat.mod_upper_bound (Nat.max 1 (List.length l) + 5 - 1) 5) as Hm.
  lia.
Qed.

(** A page within range is the slice of five items at its offset. *)
Lemma page_in_range (n : Z) :
  (1 <= n <= Z.of_nat (num_pages A l 5))%Z ->
  page A l 5 (Some n) = inl (firstn 5 (skipn ((Z.to_nat n - 1) * 5) l)).
Proof.
  intros Hn. unfold page, validate_number.
  replace (n <? 1)%Z with false by (symmetry; apply Z.ltb_ge; lia).
  replace (Z.of_nat (num_pages A l 5) <? n)%Z with false
    by (symmetry; apply Z.ltb_ge; lia).
  f_equal. unfold count.
  set (bottom := (Z.to_nat n - 1) * 5).
  destruct (List.length l <=? bottom + 5) eqn:E.
  - apply Nat.leb_le in E.
    rewrite (firstn_all2 (n := 5)) by (rewrite length_skipn; lia).
    apply firstn_all2. rewrite length_skipn. lia.
  - f_equal. lia.
Qed.

Lemma page_out_of_range (n : Z) :
  (n < 1 \/ Z.of_nat (num_pages A l 5) < n)%Z ->
  page A l 5 (Some n) = inr EmptyPage.
Proof.
  intros Hn. unfold page, validate_number.
  pose proof num_pages_bounds as (H1 & _).
  destruct (n <? 1)%Z eqn:E1; [reflexivity|].
  apply Z.ltb_ge in E1.
  replace (Z.of_nat (num_pages A l 5) <? n)%Z with true
    by (symmetry; apply Z.ltb_lt; lia).
  replace (n =? 1)%Z with false by (symmetry; apply Z.eqb_neq; lia).
  reflexivity.
Qed.

Lemma slice_nonempty (k : nat) :
  l <> [] -> k < num_pages A l 5 -> firstn 5 (skipn (k * 5) l) <> [].
Proof.
  intros Hl Hk. pose proof num_pages_bounds as (H1 & H2 & _).
  assert (Hlen : k * 5 < List.length l).
  { destruct l; [contradiction|]. simpl in *. lia. }
  intros H. apply (f_equal (@List.length A)) in H.
  rewrite length_firstn, length_skipn in H. cbn [List.length] in H. lia.
Qed.

Lemma firstn_add_split (a b : nat) (xs : list A) :
  firstn (a + b) xs = (firstn a xs ++ firstn b (skipn a xs))%list.
Proof.
  revert xs. induction a as [|a IH]; intros xs; [reflexivity|].
  destruct xs as [|x xs]; [now destruct b|].
  cbn [Nat.add firstn skipn app]. now rewrite IH.
Qed.

Lemma slices_cover (k : nat) :
  List.concat (map (fun i => firstn 5 (skipn ((i - 1) * 5) l)) (seq 1 k))
  = firstn (k * 5) l.
Proof.
  induction k as [|k IH]; [reflexivity|].
  rewrite seq_S, map_app, concat_app, IH.
  cbn [map List.concat]. rewrite app_nil_r.
  replace (1 + k - 1) with k by lia.
  replace (S k * 5) with (k * 5 + 5) by lia.
  now rewrite firstn_add_split.
Qed.

End Pages.

(** X11.  [paginate_builds] never raises.  It returns at most five builds of
    the dependency's job, and at least one unless the job has none: the
    requested slice for a page number within range, the first page when the
    requested page is not an integer, and the last page when the number is
    out of range. *)
Theorem paginate_builds_total (st : Store) (dependency : Dependency)
    (requested : option Z) :
  let all := builds_of_dependency st dependency in
  let last := num_pages Build all 5 in
  exists builds,
    paginate_builds st dependency requested = inl builds
    /\ List.length builds <= 5
    /\ (all <> [] -> builds <> [])
    /\ (requested = None -> builds = firstn 5 all)
    /\ (forall n, requested = Some n -> (1 <= n <= Z.of_nat last)%Z ->
          builds = firstn 5 (skipn ((Z.to_nat n - 1) * 5) all))
    /\ (forall n, requested = Some n -> (n < 1 \/ Z.of_nat last < n)%Z ->
          builds = firstn 5 (skipn ((last - 1) * 5) all)).
Proof.
  cbv zeta.
  set (all := builds_of_dependency st dependency).
  pose proof (num_pages_bounds Build all) as (H1 & H2 & H3).
  assert (Hslice : forall k, k < num_pages Build all 5 ->
            List.length (firstn 5 (skipn (k * 5) all)) <= 5
            /\ (all <> [] -> firstn 5 (skipn (k * 5) all) <> [])).
  { intros k Hk. split.
    - rewrite length_firstn. lia.
    - intros Hne. now apply slice_nonempty. }
  unfold paginate_builds, PAGINATE_BUILDS. fold all.
  destruct requested as [n|].
  - destruct (Z_lt_le_dec n 1) as [Hlt|Hge];
      [|destruct (Z_lt_le_dec (Z.of_nat (num_pages Build all 5)) n) as [Hgt|Hle]].
    + rewrite (page_out_of_range Build all n) by now left.
      rewrite page_in_range by lia.
      rewrite Nat2Z.id.
      exists (firstn 5 (skipn ((num_pages Build all 5 - 1) * 5) all)).
      destruct (Hslice (num_pages Build all 5 - 1)) as [Hl Hn]; [lia|].
      repeat split; auto; try discriminate.
      intros m Hm Hr. injection Hm as <-. lia.
    + rewrite (page_out_of_range Build all n) by now right.
      rewrite page_in_range by lia.
      rewrite Nat2Z.id.
      exists (firstn 5 (skipn ((num_pages Build all 5 - 1) * 5) all)).
      destruct (Hslice (num_pages Build all 5 - 1)) as [Hl Hn]; [lia|].
      repeat split; auto; try discriminate.
      intros m Hm Hr. injection Hm as <-. lia.
    + rewrite page_in_range by lia.
      exists (firstn 5 (skipn ((Z.to_nat n - 1) * 5) all)).
      destruct (Hslice (Z.to_nat n - 1)) as [Hl Hn]; [lia|].
      repeat split; auto; try discriminate.
      * intros m Hm _. now injection Hm as <-.
      * intros m Hm Hr. injection Hm as <-. lia.
  - change (page Build all 5 None) with (@inr (list Build) _ PageNotAnInteger).
    cbv iota. rewrite page_in_range by lia.
    exists (firstn 5 all).
    destruct (Hslice 0) as [Hl Hn]; [lia|].
    repeat split; auto; discriminate.
Qed.

Lemma paginate_builds_total_witness :
  exists builds,
    paginate_builds Fixtures.seven_builds_store Fixtures.dep1 (Some 9%Z)
      = inl builds
    /\ map b_number builds = [2%Z; 1%Z].
Proof.
  destruct (paginate_builds_total Fixtures.seven_builds_store Fixtures.dep1
              (Some 9%Z)) as (builds & Hrun & _ & _ & _ & _ & Hout).
  exists builds. split; [exact Hrun|].
  rewrite (Hout 9%Z eq_refl).
  - vm_compute. reflexivity.
  - right. vm_compute. reflexivity.
Defined.

(** X12.  The pages 1 to [num_pages], in order, are the builds of the
    dependency's job, each build on one page. *)
Theorem paginate_builds_cover (st : Store) (dependency : Dependency) :
  let all := builds_of_dependency st dependency in
  List.concat
    (map (fun i => match paginate_builds st dependency (Some (Z.of_nat i)) with
                   | inl builds => builds
                   | inr _ => []
                   end)
         (seq 1 (num_pages Build all 5)))
  = all.
Proof.
  cbv zeta. set (all := builds_of_dependency st dependency).
  pose proof (num_pages_bounds Build all) as (H1 & H2 & H3).
  rewrite (map_ext_in _ (fun i => firstn 5 (skipn ((i - 1) * 5) all))).
  - rewrite slices_cover. apply firstn_all2. lia.
  - intros i Hi. apply in_seq in Hi.
    unfold paginate_builds, PAGINATE_BUILDS. fold all.
    rewrite page_in_range by lia. now rewrite Nat2Z.id.
Qed.

(* ------------------------------------------------------------------ *)
(** ** parse_parameters_from_job *)

Lemma dict_get_set (key k : string) (v : option string)
    (d : list (string * option string)) :
  dict_get key (dict_set k v d)
  = if String.eqb k key then Some v else dict_get key d.
Proof.
  induction d as [|[a b] d IH].
  - unfold dict_get. simpl. now destruct (String.eqb k key).
  - simpl. destruct (String.eqb a k) eqn:Eak.
    + apply String.eqb_eq in Eak. subst a.
      unfold dict_get. simpl. now destruct (String.eqb k key).
    + unfold dict_get in *. simpl.
      destruct (String.eqb a key) eqn:Eakey.
      * apply String.eqb_eq in Eakey. subst a. now rewrite String.eqb_sym, Eak.
      * exact IH.
Qed.

Lemma find_snoc {A : Type} (f : A -> bool) (l : list A) (x : A) :
  find f (l ++ [x])%list
  = match find f l with
    | Some y => Some y
    | None => if f x then Some x else None
    end.
Proof.
  induction l as [|a l IH]; simpl.
  - reflexivity.
  - now destruct (f a).
Qed.

Lemma dict_get_fold (key : string) (cs : list Element)
    (d : list (string * option string)) :
  dict_get key
    (fold_left (fun item e => dict_set (el_tag e) (el_text e) item) cs d)
  = match Notions.last_text key cs with
    | Some x => Some x
    | None => dict_get key d
    end.
Proof.
  revert d. induction cs as [|c cs IH]; intros d.
  - reflexivity.
  - simpl fold_left. rewrite IH. unfold Notions.last_text.
    simpl rev. rewrite find_snoc.
    destruct (find _ (rev cs)) as [y|]; [reflexivity|].
    rewrite dict_get_set.
    now destruct (String.eqb (el_tag c) key).
Qed.

(** X13.  [parse_parameters_from_job] returns one dict for each parameter
    element under [parameterDefinitions], in document order.  Looking a key up
    in the dict of a parameter gives the text of the last child of the
    parameter with that tag, and fails when no child has it. *)
Theorem parse_parameters_from_job_items (root : Element) (i : nat)
    (param : Element)
    (Hparam : nth_error (findall_parameters root) i = Some param) :
  List.length (parse_parameters_from_job root)
    = List.length (findall_parameters root)
  /\ exists item,
       nth_error (parse_parameters_from_job root) i = Some item
       /\ forall key,
            dict_get key item = Notions.last_text key (el_children param).
Proof.
  unfold parse_parameters_from_job. split.
  - apply length_map.
  - exists (parameter_item param). split.
    + now rewrite nth_error_map, Hparam.
    + intros key. unfold parameter_item. rewrite dict_get_fold.
      now destruct (Notions.last_text key (el_children param)).
Qed.

Lemma parse_parameters_from_job_items_witness :
  List.length (parse_parameters_from_job Fixtures.job_config) = 2
  /\ exists first second,
       parse_parameters_from_job Fixtures.job_config = [first; second]
       /\ dict_get "name" first = Some (Some "BUILD_ID")
       /\ dict_get "defaultValue" second = Some None
       /\ dict_get "description" second = None.
Proof.
  assert (H0 : nth_error (findall_parameters Fixtures.job_config) 0
               = Some (mkElement "hudson.model.StringParameterDefinition" None
                         [Fixtures.leaf "name" "OLD_ID";
                          Fixtures.leaf "description" "The build";
                          Fixtures.leaf "name" "BUILD_ID"]))
    by (vm_compute; reflexivity).
  assert (H1 : nth_error (findall_parameters Fixtures.job_config) 1
               = Some (mkElement "hudson.model.StringParameterDefinition" None
                         [Fixtures.leaf "name" "BRANCH_TO_CHECKOUT";
                          mkElement "defaultValue" None []]))
    by (vm_compute; reflexivity).
  destruct (parse_parameters_from_job_items _ _ _ H0)
    as (Hlen & first & Hfirst & Hget0).
  destruct (parse_parameters_from_job_items _ _ _ H1)
    as (_ & second & Hsecond & Hget1).
  split; [rewrite Hlen; vm_compute; reflexivity|].
  exists first, second.
  destruct (parse_parameters_from_job Fixtures.job_config)
    as [|a [|b [|c l]]] eqn:E; try discriminate Hlen.
  simpl in Hfirst, Hsecond.
  injection Hfirst as ->. injection Hsecond as ->.
  split; [reflexivity|].
  rewrite !Hget0, !Hget1. vm_compute. repeat split.
Defined.

(* ------------------------------------------------------------------ *)
(** ** ProjectBuild.get_current_artifacts *)

Lemma ProjectBuild_get_current_artifacts_In (st : Store) (self : ProjectBuild)
    (a : Artifact) :
  In a (ProjectBuild_get_current_artifacts st self)
  <-> In a (artifacts st)
      /\ exists b, In b (builds st) /\ b_pk b = a_build a
                   /\ b_build_id b = pb_build_key self.
Proof.
  unfold ProjectBuild_get_current_artifacts.
  rewrite filter_In, existsb_exists.
  split; intros [Ha (b & Hb & H)]; (split; [exact Ha|]); exists b.
  - apply andb_true_iff in H. destruct H as [H1 H2].
    apply Nat.eqb_eq in H1. apply String.eqb_eq in H2. auto.
  - destruct H as [H1 H2]. split; [exact Hb|].
    apply andb_true_iff. split; [now apply Nat.eqb_eq|now apply String.eqb_eq].
Qed.

(** X14.  With unique build keys in the Build table, the artifacts of two
    ProjectBuilds are the same when the ProjectBuilds carry the same key, of
    whichever projects they are, and have nothing in common otherwise; and
    saving a build never changes the artifacts of a ProjectBuild. *)
Theorem ProjectBuild_artifacts_same_or_disjoint (st : Store)
    (pb1 pb2 : ProjectBuild)
    (Hnd : NoDup (map b_pk (builds st))) :
  ((pb_build_key pb1 = pb_build_key pb2
    /\ ProjectBuild_get_current_artifacts st pb1
       = ProjectBuild_get_current_artifacts st pb2)
   \/ (pb_build_key pb1 <> pb_build_key pb2
       /\ forall a, In a (ProjectBuild_get_current_artifacts st pb1) ->
                    ~ In a (ProjectBuild_get_current_artifacts st pb2)))
  /\ forall instance,
       ProjectBuild_get_current_artifacts (handle_new_build instance st) pb1
       = ProjectBuild_get_current_artifacts st pb1.
Proof.
  split.
  - destruct (string_dec (pb_build_key pb1) (pb_build_key pb2)) as [E|N].
    + left. split; [exact E|].
      unfold ProjectBuild_get_current_artifacts. now rewrite E.
    + right. split; [exact N|]. intros a H1 H2.
      apply ProjectBuild_get_current_artifacts_In in H1, H2.
      destruct H1 as (_ & b1 & Hb1 & Hpk1 & Hk1).
      destruct H2 as (_ & b2 & Hb2 & Hpk2 & Hk2).
      assert (Hsame : b1 = b2)
        by (apply (NoDup_map_eq b_pk (builds st)); congruence).
      congruence.
  - intros instance.
    destruct (handle_new_build_frame instance st) as [T ->]. reflexivity.
Qed.

Lemma ProjectBuild_artifacts_same_or_disjoint_witness :
  NoDup (map b_pk (builds Fixtures.two_artifacts_store))
  /\ ProjectBuild_get_current_artifacts Fixtures.two_artifacts_store
       Fixtures.finalized_projectbuild
     = ProjectBuild_get_current_artifacts Fixtures.two_artifacts_store
         Fixtures.other_project_projectbuild.
Proof.
  assert (Hnd : NoDup (map b_pk (builds Fixtures.two_artifacts_store))).
  { simpl. constructor; [intros []|constructor]. }
  split; [exact Hnd|].
  destruct (ProjectBuild_artifacts_same_or_disjoint
              Fixtures.two_artifacts_store Fixtures.finalized_projectbuild
              Fixtures.other_project_projectbuild Hnd)
    as [[[_ Heq]|[Hne _]] _].
  - exact Heq.
  - exfalso. apply Hne. reflexivity.
Defined.
